(** * The overview waveform view of peaks.js

    A shallow embedding of [src/main/views/waveform.overview.js]: the
    [WaveformOverview] object, its event handlers, the debounced resize
    timer and the redraw cascade, together with the host it runs in (the
    container element, the player, the timer queue of the event loop and
    a log of every call made into a collaborator).

    Numbers.  The handlers are modelled over exact rationals ([Q]), with
    [Math.floor] as [Qfloor]; values that the DOM guarantees to be
    integers ([clientWidth], [clientHeight], timer delays) are [Z].  What
    the two coordinate mappings return in binary64, rounding and overflow
    included, is the subject of [Module Binary64], where the values of the
    exact mapping are related to the ones the code computes. *)

From Stdlib Require Import ZArith QArith Qround Qabs Qpower Lia Lqa List String.
From Stdlib Require PrimFloat FloatOps SpecFloat.
From stdpp Require Import base strings gmap fin_maps.
Import ListNotations.
Local Open Scope Z_scope.

(** ** Collaborators *)

(** The contract of a [WaveformData] object: [data.adapter.sample_rate],
    [data.adapter.scale] and [data.resample(width)].  [resample] is taken
    to return a dataset for every width: a call that throws would leave
    its caller at that statement (in the timer callback, after line 148
    has stored the width and before line 150 passes it to the stage), and
    no property below speaks about such a run. *)
Class WaveformData (D : Type) := {
  sample_rate : D -> Q;
  scale : D -> Q;
  resample : D -> Z -> D
}.

Module Utils.

(** Modelled from the spec: [Utils.clamp] of peaks/waveform/waveform.utils,
    which is not part of the sources at hand; section 4.4 has the pointer
    coordinate clamped into [[min, max]]. *)
Definition clamp (value min max : Q) : Q :=
  if negb (Qle_bool min value) then min
  else if negb (Qle_bool value max) then max
  else value.

End Utils.

(** An attribute value of a Konva node. *)
Inductive Value :=
| VNum (q : Q)
| VStr (s : string).

(** The attributes of a [Konva.Rect]: a JavaScript object keyed by
    attribute name. *)
Abbreviation Rect := (gmap string Value).

(** A [Konva.Stage], as far as the view drives it. *)
Record Stage := { stage_width : Z; stage_height : Z }.

(** [peaks.options], as far as the view reads it. *)
Record Options := {
  opt_height : Z;
  overviewWaveformColor : string;
  overviewHighlightRectangleColor : string;
  mediaElement_currentTime : Q
}.

(** Calls into collaborators, logged in the order they are made. *)
Inductive Call :=
| resample_call (width : Z)            (* originalWaveformData.resample(width) *)
| setup (what : string)                (* object creation and registration *)
| new_Stage (width height : Z)
| new_PlayheadLayer (time : Q)
| stage_setWidth (width : Z)
| stage_destroy
| setTimeout_call (id : positive) (delay : Z)
| clearTimeout_call (id : positive)
| waveformLayer_draw
| highlightLayer_add
| highlightLayer_draw
| playhead_updatePlayheadTime (time : Q)
| playhead_stop (time : Q)
| player_getCurrentTime
| player_seek (time : Q)
| points_updatePoints (startTime endTime : Q)
| segments_updateSegments (startTime endTime : Q).

Definition is_resample_call (c : Call) : bool :=
  match c with resample_call _ => true | _ => false end.

Definition is_seek_call (c : Call) : bool :=
  match c with player_seek _ => true | _ => false end.

(** The host of the view: the container element, the player, the timer
    queue of the event loop and the call log. *)
Record Host := {
  clientWidth : Z;                     (* container.clientWidth *)
  clientHeight : Z;                    (* container.clientHeight *)
  currentTime : Q;                     (* peaks.player.getCurrentTime() *)
  clock : Z;                           (* milliseconds *)
  timers : list (positive * Z);        (* armed timers: id, deadline *)
  next_timer : positive;               (* the id setTimeout returns next *)
  calls : list Call
}.

Definition log_call (c : Call) (h : Host) : Host :=
  {| clientWidth := clientWidth h; clientHeight := clientHeight h;
     currentTime := currentTime h; clock := clock h; timers := timers h;
     next_timer := next_timer h; calls := calls h ++ [c] |}.

Definition with_timers (ts : list (positive * Z)) (n : positive) (h : Host) : Host :=
  {| clientWidth := clientWidth h; clientHeight := clientHeight h;
     currentTime := currentTime h; clock := clock h; timers := ts;
     next_timer := n; calls := calls h |}.

Definition with_clientWidth (w : Z) (h : Host) : Host :=
  {| clientWidth := w; clientHeight := clientHeight h;
     currentTime := currentTime h; clock := clock h; timers := timers h;
     next_timer := next_timer h; calls := calls h |}.

Definition with_currentTime (t : Q) (h : Host) : Host :=
  {| clientWidth := clientWidth h; clientHeight := clientHeight h;
     currentTime := t; clock := clock h; timers := timers h;
     next_timer := next_timer h; calls := calls h |}.

Definition with_clock (t : Z) (h : Host) : Host :=
  {| clientWidth := clientWidth h; clientHeight := clientHeight h;
     currentTime := currentTime h; clock := t; timers := timers h;
     next_timer := next_timer h; calls := calls h |}.

Definition timer_id_is (i : positive) (t : positive * Z) : bool := Pos.eqb (fst t) i.

Definition is_due (now : Z) (t : positive * Z) : bool := snd t <=? now.

(** A statement either completes or throws the [TypeError] that a method
    call on [null] or [undefined] raises; what was assigned before the
    throw stays assigned. *)
Inductive Completion (A : Type) :=
| Normal (a : A)
| TypeError.
Arguments Normal {A} a.
Arguments TypeError {A}.

(** ** The view object *)

Section Overview.

Context {D : Type} `{WaveformData D}.

(** The fields of a [WaveformOverview] instance.  [null] and [undefined]
    are [None]; a timer id is a positive integer, as the HTML timer
    specification has it, so every id is truthy.  The two highlight times
    are read only under the guard [_highlightRect], which is set after
    both were assigned; until then they hold 0 in place of [undefined]. *)
Record View := {
  originalWaveformData : D;
  options : Options;
  width : Z;
  height : Z;
  data : D;
  _resizeTimeoutId : option positive;
  stage : option Stage;
  _highlightRect : option Rect;
  _highlightRectStartTime : Q;
  _highlightRectEndTime : Q
}.

Definition set_width (w : Z) (v : View) : View :=
  {| originalWaveformData := originalWaveformData v; options := options v;
     width := w; height := height v; data := data v;
     _resizeTimeoutId := _resizeTimeoutId v; stage := stage v;
     _highlightRect := _highlightRect v;
     _highlightRectStartTime := _highlightRectStartTime v;
     _highlightRectEndTime := _highlightRectEndTime v |}.

Definition set_data (d : D) (v : View) : View :=
  {| originalWaveformData := originalWaveformData v; options := options v;
     width := width v; height := height v; data := d;
     _resizeTimeoutId := _resizeTimeoutId v; stage := stage v;
     _highlightRect := _highlightRect v;
     _highlightRectStartTime := _highlightRectStartTime v;
     _highlightRectEndTime := _highlightRectEndTime v |}.

Definition set_resizeTimeoutId (i : option positive) (v : View) : View :=
  {| originalWaveformData := originalWaveformData v; options := options v;
     width := width v; height := height v; data := data v;
     _resizeTimeoutId := i; stage := stage v;
     _highlightRect := _highlightRect v;
     _highlightRectStartTime := _highlightRectStartTime v;
     _highlightRectEndTime := _highlightRectEndTime v |}.

Definition set_stage (s : option Stage) (v : View) : View :=
  {| originalWaveformData := originalWaveformData v; options := options v;
     width := width v; height := height v; data := data v;
     _resizeTimeoutId := _resizeTimeoutId v; stage := s;
     _highlightRect := _highlightRect v;
     _highlightRectStartTime := _highlightRectStartTime v;
     _highlightRectEndTime := _highlightRectEndTime v |}.

Definition set_highlightRect (r : option Rect) (v : View) : View :=
  {| originalWaveformData := originalWaveformData v; options := options v;
     width := width v; height := height v; data := data v;
     _resizeTimeoutId := _resizeTimeoutId v; stage := stage v;
     _highlightRect := r;
     _highlightRectStartTime := _highlightRectStartTime v;
     _highlightRectEndTime := _highlightRectEndTime v |}.

Definition set_highlightRectTimes (s e : Q) (v : View) : View :=
  {| originalWaveformData := originalWaveformData v; options := options v;
     width := width v; height := height v; data := data v;
     _resizeTimeoutId := _resizeTimeoutId v; stage := stage v;
     _highlightRect := _highlightRect v;
     _highlightRectStartTime := s;
     _highlightRectEndTime := e |}.

(** The view in its host. *)
Record World := { self : View; host : Host }.

(** ** Handlers run in a state monad with one exception *)

Definition M (A : Type) : Type := World -> World * Completion A.

Definition ret {A} (a : A) : M A := fun w => (w, Normal a).

Definition bind {A B} (m : M A) (k : A -> M B) : M B :=
  fun w => match m w with
           | (w', Normal a) => k a w'
           | (w', TypeError) => (w', TypeError)
           end.

Definition throw {A} : M A := fun w => (w, TypeError).

Notation "x <- m ;; k" := (bind m (fun x => k))
  (at level 100, m at next level, right associativity).
Notation "m ;;; k" := (bind m (fun _ => k))
  (at level 100, right associativity).

(** Reading a field of [self]. *)
Definition this {A} (f : View -> A) : M A := fun w => (w, Normal (f (self w))).

(** Assigning a field of [self]. *)
Definition assign (f : View -> View) : M unit :=
  fun w => ({| self := f (self w); host := host w |}, Normal tt).

(** Calling a collaborator. *)
Definition call (c : Call) : M unit :=
  fun w => ({| self := self w; host := log_call c (host w) |}, Normal tt).

Definition container_clientWidth : M Z :=
  fun w => (w, Normal (clientWidth (host w))).

(** [setTimeout(callback, delay)]: the only callback the view ever
    schedules is the resize callback, so a timer is its id and deadline. *)
Definition setTimeout (delay : Z) : M positive :=
  fun w =>
    let h := host w in
    let i := next_timer h in
    ({| self := self w;
        host := log_call (setTimeout_call i delay)
                  (with_timers (timers h ++ [(i, clock h + delay)]) (Pos.succ i) h) |},
     Normal i).

(** [clearTimeout(id)]: an id that is not armed is ignored. *)
Definition clearTimeout (i : positive) : M unit :=
  fun w =>
    let h := host w in
    ({| self := self w;
        host := log_call (clearTimeout_call i)
                  (with_timers (List.filter (fun t => negb (timer_id_is i t)) (timers h))
                     (next_timer h) h) |},
     Normal tt).

(** [this.stage.setWidth(width)]: a [TypeError] once [stage] is [null]. *)
Definition stage_do_setWidth (w : Z) : M unit :=
  s <- this stage ;;
  match s with
  | None => throw
  | Some st =>
      assign (set_stage (Some {| stage_width := w; stage_height := stage_height st |})) ;;;
      call (stage_setWidth w)
  end.

(** ** Coordinate mapping (source lines 165-211)

    The two mappings in exact arithmetic, as the handlers below use them.
    [Binary64.timeToPixels] and [Binary64.pixelsToTime] are the same two
    lines with every operation rounded. *)

Definition timeToPixels (v : View) (time : Q) : Z :=
  Qfloor (time * sample_rate (data v) / scale (data v)).

Definition pixelsToTime (v : View) (pixels : Q) : Q :=
  (pixels * scale (data v) / sample_rate (data v))%Q.

Definition getFrameOffset (v : View) : Z := 0.
Definition getWidth (v : View) : Z := width v.
Definition getHeight (v : View) : Z := height v.
Definition getWaveformData (v : View) : D := data v.

(** ** Highlight region (source lines 233-275) *)

Definition _createHighlightRect (startTime endTime : Q) : M unit :=
  assign (set_highlightRectTimes startTime endTime) ;;;
  v <- this id ;;
  let startOffset := timeToPixels v startTime in
  let endOffset := timeToPixels v endTime in
  let color := overviewHighlightRectangleColor (options v) in
  assign (set_highlightRect (Some (
    <["cornerRadius" := VNum 2]> (
    <["opacity" := VNum (3 # 10)]> (
    <["fill" := VStr color]> (
    <["height" := VNum (inject_Z (height v - 11 * 2))]> (
    <["strokeWidth" := VNum 1]> (
    <["stroke" := VStr color]> (
    <["width" := VNum (inject_Z (endOffset - startOffset))]> (
    <["y" := VNum 11]> (
    <["startOffset" := VNum 0]> ∅))))))))))) ;;;
  call highlightLayer_add.

(** [this._highlightRect.setAttrs] throws when no rectangle exists. *)
Definition _updateHighlightRect (startTime endTime : Q) : M unit :=
  assign (set_highlightRectTimes startTime endTime) ;;;
  v <- this id ;;
  let startOffset := timeToPixels v startTime in
  let endOffset := timeToPixels v endTime in
  match _highlightRect v with
  | None => throw
  | Some attrs =>
      assign (set_highlightRect (Some (
        <["width" := VNum (inject_Z (endOffset - startOffset))]> (
        <["x" := VNum (inject_Z startOffset)]> attrs)))) ;;;
      call highlightLayer_draw
  end.

(** ** The redraw cascade (source lines 277-296) *)

Definition player_do_getCurrentTime : M Q :=
  call player_getCurrentTime ;;;
  fun w => (w, Normal (currentTime (host w))).

Definition _updateWaveform : M unit :=
  call waveformLayer_draw ;;;
  playheadTime <- player_do_getCurrentTime ;;
  call (playhead_updatePlayheadTime playheadTime) ;;;
  r <- this _highlightRect ;;
  match r with
  | Some _ =>
      s <- this _highlightRectStartTime ;;
      e <- this _highlightRectEndTime ;;
      _updateHighlightRect s e
  | None => ret tt
  end ;;;
  v <- this id ;;
  let frameStartTime := 0%Q in
  let frameEndTime := pixelsToTime v (inject_Z (width v)) in
  call (points_updatePoints frameStartTime frameEndTime) ;;;
  call (segments_updateSegments frameStartTime frameEndTime).

(** ** Teardown (source lines 298-308) *)

Definition destroy : M unit :=
  i <- this _resizeTimeoutId ;;
  match i with
  | Some i => clearTimeout i ;;; assign (set_resizeTimeoutId None)
  | None => ret tt
  end ;;;
  s <- this stage ;;
  match s with
  | Some _ => call stage_destroy ;;; assign (set_stage None)
  | None => ret tt
  end.

(** ** Pointer input (source lines 90-112) *)

Definition onMouseDown (mousePosX : Q) : M unit :=
  w <- this width ;;
  let mousePosX := Utils.clamp mousePosX 0 (inject_Z w) in
  v <- this id ;;
  let time := pixelsToTime v mousePosX in
  call (playhead_updatePlayheadTime time) ;;;
  call (player_seek time).

Definition onMouseMove (mousePosX : Q) : M unit :=
  w <- this width ;;
  let mousePosX := Utils.clamp mousePosX 0 (inject_Z w) in
  v <- this id ;;
  let time := pixelsToTime v mousePosX in
  call (playhead_updatePlayheadTime time) ;;;
  call (player_seek time).

(** ** Notification handlers (source lines 116-155) *)

Definition on_player_play (time : Q) : M unit :=
  call (playhead_updatePlayheadTime time).

Definition on_player_pause (time : Q) : M unit :=
  call (playhead_stop time).

Definition on_player_time_update (time : Q) : M unit :=
  call (playhead_updatePlayheadTime time).

Definition on_zoomview_displaying (startTime endTime : Q) : M unit :=
  r <- this _highlightRect ;;
  match r with
  | None => _createHighlightRect startTime endTime
  | Some _ => ret tt
  end ;;;
  _updateHighlightRect startTime endTime.

(** The callback armed by the resize handler (source lines 147-153). *)
Definition resize_timeout : M unit :=
  cw <- container_clientWidth ;;
  assign (set_width cw) ;;;
  w <- this width ;;
  o <- this originalWaveformData ;;
  call (resample_call w) ;;;
  assign (set_data (resample o w)) ;;;
  stage_do_setWidth w ;;;
  _updateWaveform.

Definition on_window_resize : M unit :=
  i <- this _resizeTimeoutId ;;
  match i with
  | Some i => clearTimeout i ;;; assign (set_resizeTimeoutId None)
  | None => ret tt
  end ;;;
  cw <- container_clientWidth ;;
  (* Avoid resampling waveform data to zero width *)
  if negb (cw =? 0) then
    assign (set_width cw) ;;;
    w <- this width ;;
    stage_do_setWidth w ;;;
    t <- setTimeout 500 ;;
    assign (set_resizeTimeoutId (Some t))
  else ret tt.

(** ** Construction (source lines 40-112) *)

Definition construction_calls (w ht : Z) (opts : Options) : list Call :=
  (if w =? 0 then [] else [resample_call w]) ++
  [ new_Stage w ht;
    setup "waveformLayer"; setup "axis"; setup "waveformShape";
    setup "segmentsLayer"; setup "pointsLayer"; setup "highlightLayer";
    new_PlayheadLayer (mediaElement_currentTime opts);
    setup "mouseDragHandler";
    setup "on player_play"; setup "on player_pause";
    setup "on player_time_update"; setup "on zoomview.displaying";
    setup "on window_resize" ].

Definition WaveformOverview (waveformData : D) (opts : Options) (h : Host) : World :=
  let w := clientWidth h in
  let ht := if clientHeight h =? 0 then opt_height opts else clientHeight h in
  {| self :=
       {| originalWaveformData := waveformData;
          options := opts;
          width := w;
          height := ht;
          data := if negb (w =? 0) then resample waveformData w else waveformData;
          _resizeTimeoutId := None;
          stage := Some {| stage_width := w; stage_height := ht |};
          _highlightRect := None;
          _highlightRectStartTime := 0;
          _highlightRectEndTime := 0 |};
     host := fold_left (fun h c => log_call c h) (construction_calls w ht opts) h |}.

(** ** The event loop *)

Inductive Event :=
| player_play (time : Q)
| player_pause (time : Q)
| player_time_update (time : Q)
| zoomview_displaying (startTime endTime : Q)
| window_resize
| mouse_down (mousePosX : Q)
| mouse_move (mousePosX : Q)
| teardown
| container_width_becomes (w : Z)   (* the layout changes; nobody is notified *)
| player_time_becomes (t : Q)
| time_passes (ms : Z).

Definition run {A} (m : M A) (w : World) : World := fst (m w).

(** Timer callbacks run to completion one after the other; an exception
    in one is reported by the host and does not stop the loop. *)
Fixpoint fire (due : list (positive * Z)) (w : World) : World :=
  match due with
  | [] => w
  | _ :: rest => fire rest (run resize_timeout w)
  end.

Definition elapse (ms : Z) (w : World) : World :=
  let h := host w in
  let now := clock h + ms in
  let due := List.filter (is_due now) (timers h) in
  let waiting := List.filter (fun t => negb (is_due now t)) (timers h) in
  fire due
    {| self := self w;
       host := with_clock now (with_timers waiting (next_timer h) h) |}.

Definition step (w : World) (e : Event) : World :=
  match e with
  | player_play t => run (on_player_play t) w
  | player_pause t => run (on_player_pause t) w
  | player_time_update t => run (on_player_time_update t) w
  | zoomview_displaying s e => run (on_zoomview_displaying s e) w
  | window_resize => run on_window_resize w
  | mouse_down x => run (onMouseDown x) w
  | mouse_move x => run (onMouseMove x) w
  | teardown => run destroy w
  | container_width_becomes cw =>
      {| self := self w; host := with_clientWidth cw (host w) |}
  | player_time_becomes t =>
      {| self := self w; host := with_currentTime t (host w) |}
  | time_passes ms => elapse ms w
  end.

Definition steps (w : World) (es : list Event) : World := fold_left step es w.

(** At most one timer is armed, and it is the one [self] remembers. *)
Definition single_timer (w : World) : bool :=
  match timers (host w), _resizeTimeoutId (self w) with
  | [], _ => true
  | [t], Some i => timer_id_is i t
  | _, _ => false
  end.

Definition alive (w : World) : bool :=
  match stage (self w) with Some _ => true | None => false end.

(** The calls made since the log was [n] entries long. *)
Definition calls_since (before after : World) : list Call :=
  drop (length (calls (host before))) (calls (host after)).

End Overview.

Arguments View D : clear implicits.
Arguments World D : clear implicits.
Arguments M D A : clear implicits.

(** ** States and relations the properties are stated with *)

Section Derived.

Context {D : Type} {WD : WaveformData D}.

(** The state after the guard that both the resize handler and [destroy]
    open with: an id that is remembered is cleared and forgotten. *)
Definition cleared (w : World D) : World D :=
  match _resizeTimeoutId (self w) with
  | Some i =>
      {| self := set_resizeTimeoutId None (self w);
         host := log_call (clearTimeout_call i)
                   (with_timers
                      (List.filter (fun t => negb (timer_id_is i t)) (timers (host w)))
                      (next_timer (host w)) (host w)) |}
  | None => w
  end.

(** The state after the resize handler has taken a nonzero width. *)
Definition rearmed (w : World D) (st : Stage) : World D :=
  let c := cleared w in
  let cw := clientWidth (host w) in
  let i := next_timer (host w) in
  {| self :=
       set_resizeTimeoutId (Some i)
         (set_stage (Some {| stage_width := cw; stage_height := stage_height st |})
            (set_width cw (self c)));
     host :=
       log_call (setTimeout_call i 500)
         (with_timers (timers (host c) ++ [(i, clock (host w) + 500)]) (Pos.succ i)
            (log_call (stage_setWidth cw) (host c))) |}.

(** The state in which the resize callback starts the cascade. *)
Definition resampled (w : World D) (st : Stage) : World D :=
  let cw := clientWidth (host w) in
  {| self :=
       set_stage (Some {| stage_width := cw; stage_height := stage_height st |})
         (set_data (resample (originalWaveformData (self w)) cw)
            (set_width cw (self w)));
     host := log_call (stage_setWidth cw) (log_call (resample_call cw) (host w)) |}.

(** What the highlight rectangle becomes when its pixel bounds are
    recomputed from the stored times. *)
Definition recomputed (v : View D) (attrs : Rect) : Rect :=
  <["width" := VNum (inject_Z (timeToPixels v (_highlightRectEndTime v)
                               - timeToPixels v (_highlightRectStartTime v)))]> (
  <["x" := VNum (inject_Z (timeToPixels v (_highlightRectStartTime v)))]> attrs).

(** The calls of the redraw cascade, for a view [v] and a player at [now]. *)
Definition cascade_calls (v : View D) (now : Q) : list Call :=
  [waveformLayer_draw; player_getCurrentTime; playhead_updatePlayheadTime now] ++
  (match _highlightRect v with Some _ => [highlightLayer_draw] | None => [] end) ++
  [points_updatePoints 0 (pixelsToTime v (inject_Z (width v)));
   segments_updateSegments 0 (pixelsToTime v (inject_Z (width v)))].

(** Two rectangles that agree on every attribute but [x] and [width]. *)
Definition same_frame (r r' : Rect) : Prop :=
  forall k : string, k <> "x" -> k <> "width" -> r' !! k = r !! k.

(** An existing rectangle still exists and has kept its frame. *)
Definition HighlightKept (w w' : World D) : Prop :=
  forall r, _highlightRect (self w) = Some r ->
    exists r', _highlightRect (self w') = Some r' /\ same_frame r r'.

Definition TimerKept (w w' : World D) : Prop :=
  timers (host w') = timers (host w) /\
  _resizeTimeoutId (self w') = _resizeTimeoutId (self w).

(** The states a view goes through: built in a host with no timer armed,
    then driven by events. *)
Inductive reachable : World D -> Prop :=
| reach_new (waveformData : D) (opts : Options) (h : Host) :
    timers h = [] -> reachable (WaveformOverview waveformData opts h)
| reach_step (w : World D) (e : Event) : reachable w -> reachable (step w e).

(** Section 4.2 as it is worded: a resize to width zero changes no state
    at all, the pending timer included, and resamples nothing. *)
Definition zero_width_resize_changes_nothing (w : World D) : Prop :=
  clientWidth (host w) = 0 ->
  let w' := run on_window_resize w in
  width (self w') = width (self w) /\
  data (self w') = data (self w) /\
  _resizeTimeoutId (self w') = _resizeTimeoutId (self w) /\
  timers (host w') = timers (host w) /\
  List.filter is_resample_call (calls_since w w') = [].

End Derived.

(** ** The mapping as the specification words it *)



(** ** A dataset to run the model on

    A track of [demo_samples] samples; resampling to a width spreads the
    samples evenly over that many pixels. *)

Record Demo := { demo_rate : Q; demo_scale : Q; demo_samples : Z }.

#[export] Instance Demo_data : WaveformData Demo := {
  sample_rate d := demo_rate d;
  scale d := demo_scale d;
  resample d w :=
    {| demo_rate := demo_rate d;
       demo_scale := inject_Z (demo_samples d / w);
       demo_samples := demo_samples d |}
}.

Definition demo_track : Demo :=
  {| demo_rate := 44100; demo_scale := 512; demo_samples := 4410000 |}.

Definition demo_options : Options :=
  {| opt_height := 200;
     overviewWaveformColor := "grey";
     overviewHighlightRectangleColor := "blue";
     mediaElement_currentTime := 0 |}.

Definition demo_host (cw : Z) : Host :=
  {| clientWidth := cw; clientHeight := 0; currentTime := 0; clock := 0;
     timers := []; next_timer := 1; calls := [] |}.

(** A view built in a container 1000 pixels wide, and one built while the
    container was hidden. *)
Definition demo_world : World Demo := WaveformOverview demo_track demo_options (demo_host 1000).
Definition demo_hidden : World Demo := WaveformOverview demo_track demo_options (demo_host 0).

(** The view with a resize pending: the container went to 800 pixels and
    the notification arrived. *)
Definition demo_armed : World Demo :=
  steps demo_world [container_width_becomes 800; window_resize].

(** ** The mapping in binary64

    Lines 166 and 177 compute in JavaScript numbers.  Here a number is a
    rational, an infinity or NaN, and every product and quotient is the
    exact result rounded to the nearest binary64 value (53 significant
    bits, ties to even, subnormals below [2^-1022], overflow to an
    infinity from [2^1024] on), as IEEE 754 defines the operations.  The
    two zeros are not told apart.  [of_float] reads a primitive float of
    the kernel as such a number, so that the operations defined here can
    be compared with the kernel's binary64 arithmetic on given inputs. *)

Module Binary64.

Definition pow2 (z : Z) : Q := Qpower 2 z.

(** The unit roundoff, [2^-53]. *)
Definition u : Q := pow2 (-53).

Inductive number :=
| Finite (q : Q)
| Infinity (negative : bool)
| NaN.

(** [floor (log2 |q|)] for a nonzero [q]. *)
Definition exponent (q : Q) : Z :=
  let e := Z.log2 (Z.abs (Qnum q)) - Z.log2 (Zpos (Qden q)) in
  if Qle_bool (pow2 e) (Qabs q) then e else e - 1.

(** The nearest integer, a tie going to the even one. *)
Definition nearest_even (x : Q) : Z :=
  let f := Qfloor x in
  match (x - inject_Z f ?= 1 # 2)%Q with
  | Lt => f
  | Gt => f + 1
  | Eq => if Z.even f then f else f + 1
  end.

(** The binary64 value of the exact result [q]. *)
Definition round (q : Q) : number :=
  let q := Qred q in
  if Qeq_bool q 0 then Finite 0
  else
    let e := Z.max (exponent q) (-1022) - 52 in
    let r := Qred (inject_Z (nearest_even (q / pow2 e)) * pow2 e) in
    if Qle_bool (pow2 1024) (Qabs r) then Infinity (negb (Qle_bool 0 q))
    else Finite r.

Definition is_negative (q : Q) : bool := negb (Qle_bool 0 q).

(** [a * b] *)
Definition mul (a b : number) : number :=
  match a, b with
  | NaN, _ | _, NaN => NaN
  | Finite x, Finite y => round (x * y)
  | Infinity s, Finite y | Finite y, Infinity s =>
      if Qeq_bool y 0 then NaN else Infinity (xorb s (is_negative y))
  | Infinity s, Infinity s' => Infinity (xorb s s')
  end.

(** [a / b] *)
Definition div (a b : number) : number :=
  match a, b with
  | NaN, _ | _, NaN => NaN
  | Finite x, Finite y =>
      if Qeq_bool y 0
      then if Qeq_bool x 0 then NaN else Infinity (is_negative x)
      else round (x / y)
  | Infinity s, Finite y => Infinity (xorb s (is_negative y))
  | Finite _, Infinity _ => Finite 0
  | Infinity _, Infinity _ => NaN
  end.

(** [Math.floor(a)] *)
Definition floor (a : number) : number :=
  match a with
  | Finite q => Finite (inject_Z (Qfloor q))
  | _ => a
  end.

(** The number a primitive binary64 float of the kernel stands for. *)
Definition of_float (f : PrimFloat.float) : number :=
  match FloatOps.Prim2SF f with
  | SpecFloat.S754_zero _ => Finite 0
  | SpecFloat.S754_infinity s => Infinity s
  | SpecFloat.S754_nan => NaN
  | SpecFloat.S754_finite s m e =>
      Finite (Qred ((if s then -1 else 1) * inject_Z (Zpos m) * pow2 e))
  end.

(** The binary64 float with significand [m] and exponent [e], [m * 2^e],
    and the two source lines over the kernel's floats: line 177, and line
    166 up to its [Math.floor]. *)
Definition double (m : positive) (e : Z) : PrimFloat.float :=
  FloatOps.SF2Prim (SpecFloat.S754_finite false m e).

Definition float_pixelsToTime (sample_rate scale pixels : PrimFloat.float) : PrimFloat.float :=
  PrimFloat.div (PrimFloat.mul pixels scale) sample_rate.

Definition float_quotient (sample_rate scale time : PrimFloat.float) : PrimFloat.float :=
  PrimFloat.div (PrimFloat.mul time sample_rate) scale.

(** [a] approximates the positive [b] with relative error at most [c]. *)
Definition near (c a b : Q) : Prop := (0 < b /\ Qabs (a - b) <= c * b)%Q.


Section Mapping.

Context {D : Type} {WD : WaveformData D}.

(** Source line 166. *)
Definition timeToPixels (v : View D) (time : number) : number :=
  floor (div (mul time (Finite (sample_rate (data v)))) (Finite (scale (data v)))).

(** Source line 177. *)
Definition pixelsToTime (v : View D) (pixels : number) : number :=
  div (mul pixels (Finite (scale (data v)))) (Finite (sample_rate (data v))).

(** Section 8 as it is worded: the round trip of a nonnegative pixel [p]
    ends within 1 of [p]. *)
Definition round_trip_within_one (v : View D) (p : Q) : Prop :=
  (0 <= p)%Q -> (0 < sample_rate (data v))%Q -> (0 < scale (data v))%Q ->
  match timeToPixels v (pixelsToTime v (Finite p)) with
  | Finite x => (Qabs (x - p) <= 1)%Q
  | _ => False
  end.


End Mapping.

End Binary64.

(** A track whose scale is not a whole number of samples, 186.18 as
    binary64 has it, in a view built while the container was hidden. *)
Definition demo_fractional : World Demo :=
  WaveformOverview
    {| demo_rate := 44100; demo_scale := 3275313197749371 # 17592186044416;
       demo_samples := 4410000 |}
    demo_options (demo_host 0).

(** ** Further states and relations *)

Section Coverage.

Context {D : Type} {WD : WaveformData D}.

Definition is_pointer_event (e : Event) : bool :=
  match e with mouse_down _ | mouse_move _ => true | _ => false end.

Definition is_zoomview_event (e : Event) : bool :=
  match e with zoomview_displaying _ _ => true | _ => false end.

Definition is_time_passes (e : Event) : bool :=
  match e with time_passes _ => true | _ => false end.

Definition is_highlight_call (c : Call) : bool :=
  match c with highlightLayer_add | highlightLayer_draw => true | _ => false end.

Definition is_timer_call (c : Call) : bool :=
  match c with setTimeout_call _ _ | clearTimeout_call _ => true | _ => false end.

Definition is_stage_call (c : Call) : bool :=
  match c with stage_setWidth _ | stage_destroy => true | _ => false end.

(** Resampling, the timer, the stage, and the layers the cascade redraws. *)
Definition is_resize_work (c : Call) : bool :=
  match c with
  | resample_call _ | setTimeout_call _ _ | clearTimeout_call _
  | stage_setWidth _ | stage_destroy | waveformLayer_draw
  | points_updatePoints _ _ | segments_updateSegments _ _ => true
  | _ => false
  end.

Definition is_zero_resample (c : Call) : bool :=
  match c with resample_call n => n =? 0 | _ => false end.

(** The container, [cw] pixels wide at first, is never zero-wide at a
    moment when time passes in [es]. *)
Fixpoint wide_when_time_passes (cw : Z) (es : list Event) : bool :=
  match es with
  | [] => true
  | container_width_becomes c :: es => wide_when_time_passes c es
  | time_passes _ :: es => negb (cw =? 0) && wide_when_time_passes cw es
  | _ :: es => wide_when_time_passes cw es
  end.

(** The view after [destroy]: no stage, no timer, no id remembered. *)
Definition torn_down (w : World D) : Prop :=
  stage (self w) = None /\ timers (host w) = [] /\ _resizeTimeoutId (self w) = None.

(** The calls a handler makes, by the event it handles. *)
Definition may_call (e : Event) (c : Call) : bool :=
  match e, c with
  | (player_play _ | player_time_update _), playhead_updatePlayheadTime _ => true
  | player_pause _, playhead_stop _ => true
  | zoomview_displaying _ _, (highlightLayer_add | highlightLayer_draw) => true
  | window_resize, (clearTimeout_call _ | stage_setWidth _ | setTimeout_call _ _) => true
  | (mouse_down _ | mouse_move _), (playhead_updatePlayheadTime _ | player_seek _) => true
  | teardown, (clearTimeout_call _ | stage_destroy) => true
  | time_passes _,
    (resample_call _ | stage_setWidth _ | waveformLayer_draw | player_getCurrentTime
     | playhead_updatePlayheadTime _ | highlightLayer_draw
     | points_updatePoints _ _ | segments_updateSegments _ _) => true
  | _, _ => false
  end.

(** The state [_updateWaveform] leaves. *)
Definition redrawn (w : World D) : World D :=
  {| self :=
       match _highlightRect (self w) with
       | Some r =>
           set_highlightRect (Some (recomputed (self w) r))
             (set_highlightRectTimes (_highlightRectStartTime (self w))
                (_highlightRectEndTime (self w)) (self w))
       | None => self w
       end;
     host := fold_left (fun h c => log_call c h)
               (cascade_calls (self w) (currentTime (host w))) (host w) |}.

(** The state the first notification of a visible range leaves. *)
Definition highlighted (w : World D) (startTime endTime : Q) : World D :=
  let v := self w in
  let startOffset := timeToPixels v startTime in
  let endOffset := timeToPixels v endTime in
  let color := overviewHighlightRectangleColor (options v) in
  let x := VNum (inject_Z startOffset) in
  let wd := VNum (inject_Z (endOffset - startOffset)) in
  {| self :=
       set_highlightRect (Some (
         <["width" := wd]> (<["x" := x]> (
         <["cornerRadius" := VNum 2]> (
         <["opacity" := VNum (3 # 10)]> (
         <["fill" := VStr color]> (
         <["height" := VNum (inject_Z (height v - 11 * 2))]> (
         <["strokeWidth" := VNum 1]> (
         <["stroke" := VStr color]> (
         <["width" := wd]> (
         <["y" := VNum 11]> (
         <["startOffset" := VNum 0]> ∅))))))))))))
         (set_highlightRectTimes startTime endTime v);
     host := log_call highlightLayer_draw (log_call highlightLayer_add (host w)) |}.

(** The rectangle sits where the stored times fall in the active dataset. *)
Definition highlight_in_place (w : World D) : Prop :=
  forall r, _highlightRect (self w) = Some r ->
    let v := self w in
    r !! "x" = Some (VNum (inject_Z (timeToPixels v (_highlightRectStartTime v)))) /\
    r !! "width" =
      Some (VNum (inject_Z (timeToPixels v (_highlightRectEndTime v)
                            - timeToPixels v (_highlightRectStartTime v)))).

(** A burst of resize notifications: each entry is the pause before the
    notification and the container width it finds. *)
Definition resize_burst (ws : list (Z * Z)) : list Event :=
  flat_map (fun p => [time_passes (fst p); container_width_becomes (snd p); window_resize]) ws.

Definition short_pause (p : Z * Z) : bool :=
  (0 <=? fst p) && (fst p <? 500) && negb (snd p =? 0).

(** A resample is pending for the width the container has. *)
Definition pending (w : World D) : Prop :=
  alive w = true /\
  exists i, _resizeTimeoutId (self w) = Some i /\
            timers (host w) = [(i, clock (host w) + 500)].

End Coverage.


(** ** Properties *)

Section Properties.

Context {D : Type} {WD : WaveformData D}.
Implicit Types (v : View D) (w : World D).

(** Unfolds the monad and the handlers down to records. *)
Ltac exec :=
  cbv beta iota zeta delta
    [run step steps bind ret throw this assign call container_clientWidth
     setTimeout clearTimeout stage_do_setWidth player_do_getCurrentTime
     _createHighlightRect _updateHighlightRect _updateWaveform destroy
     onMouseDown onMouseMove on_player_play on_player_pause
     on_player_time_update on_zoomview_displaying resize_timeout
     on_window_resize fst snd].

Lemma filter_none {A} (f : A -> bool) (l : list A) :
  Forall (fun x => f x = false) l -> List.filter f l = [].
Proof.
  induction 1 as [|x xs Hx _ IH]; simpl; [reflexivity|]. rewrite Hx. exact IH.
Qed.

Lemma filter_every {A} (f : A -> bool) (l : list A) :
  Forall (fun x => f x = false) l -> List.filter (fun x => negb (f x)) l = l.
Proof.
  induction 1 as [|x xs Hx _ IH]; simpl; [reflexivity|]. rewrite Hx. simpl. rewrite IH. reflexivity.
Qed.

Lemma calls_since_app w w' (l : list Call) :
  calls (host w') = calls (host w) ++ l -> calls_since w w' = l.
Proof. intros E. unfold calls_since. rewrite E. apply drop_app_length. Qed.

(** *** Pointer input *)

Lemma clamp_range (x lo hi : Q) :
  (lo <= hi)%Q -> (lo <= Utils.clamp x lo hi <= hi)%Q.
Proof.
  intros Hle. unfold Utils.clamp.
  destruct (Qle_bool lo x) eqn:E1; simpl.
  - apply Qle_bool_iff in E1.
    destruct (Qle_bool x hi) eqn:E2; simpl.
    + apply Qle_bool_iff in E2. split; assumption.
    + split; [assumption | apply Qle_refl].
  - split; [apply Qle_refl | assumption].
Qed.

(** C5.  A press or a drag-move at raw coordinate [x] clamps [x] into
    [[0, width]], converts the clamped coordinate with [pixelsToTime],
    repositions the playhead to that time at once and issues exactly one
    seek request with the same time; the view itself is not changed. *)
Theorem pointer_seek w (x : Q) (e : Event) :
  e = mouse_down x \/ e = mouse_move x ->
  0 <= width (self w) ->
  let c := Utils.clamp x 0 (inject_Z (width (self w))) in
  let t := pixelsToTime (self w) c in
  (0 <= c <= inject_Z (width (self w)))%Q /\
  self (step w e) = self w /\
  calls (host (step w e)) =
    calls (host w) ++ [playhead_updatePlayheadTime t; player_seek t] /\
  List.filter is_seek_call (calls_since w (step w e)) = [player_seek t].
Proof.
  intros He Hw c t. split.
  { apply clamp_range. change 0%Q with (inject_Z 0). rewrite <- Zle_Qle. exact Hw. }
  destruct He as [-> | ->]; exec; simpl.
  all: unfold calls_since; simpl; rewrite <- app_assoc; simpl.
  all: rewrite drop_app_length; simpl; auto.
Qed.

(** *** Construction *)

(** C10.  At construction a container of width zero leads to no resample
    call and leaves the original dataset as the active one; any other
    width makes the active dataset the original resampled to it, by
    exactly one resample call. *)
Theorem construction_dataset (waveformData : D) (opts : Options) (h : Host) :
  let w := WaveformOverview waveformData opts h in
  getWaveformData (self w) =
    (if clientWidth h =? 0 then waveformData
     else resample waveformData (clientWidth h)) /\
  List.filter is_resample_call (drop (length (calls h)) (calls (host w))) =
    (if clientWidth h =? 0 then [] else [resample_call (clientWidth h)]).
Proof.
  simpl. split.
  - unfold getWaveformData; simpl. destruct (clientWidth h =? 0); reflexivity.
  - unfold construction_calls. destruct (clientWidth h =? 0); simpl;
    repeat rewrite <- app_assoc; simpl; rewrite drop_app_length; reflexivity.
Qed.

(** *** Equations of the handlers *)

Lemma cleared_fields w :
  width (self (cleared w)) = width (self w) /\
  data (self (cleared w)) = data (self w) /\
  stage (self (cleared w)) = stage (self w) /\
  originalWaveformData (self (cleared w)) = originalWaveformData (self w) /\
  _highlightRect (self (cleared w)) = _highlightRect (self w) /\
  _resizeTimeoutId (self (cleared w)) = None /\
  clientWidth (host (cleared w)) = clientWidth (host w) /\
  clock (host (cleared w)) = clock (host w) /\
  next_timer (host (cleared w)) = next_timer (host w) /\
  currentTime (host (cleared w)) = currentTime (host w).
Proof.
  unfold cleared. destruct (_resizeTimeoutId (self w)) eqn:E; simpl; auto 12.
Qed.

Lemma cleared_idle w : _resizeTimeoutId (self w) = None -> cleared w = w.
Proof. intros Hn. unfold cleared. rewrite Hn. reflexivity. Qed.

Lemma single_timer_cleared w :
  single_timer w = true -> timers (host (cleared w)) = [].
Proof.
  unfold single_timer, cleared.
  destruct (timers (host w)) as [|t [|t' ts]] eqn:Et;
    destruct (_resizeTimeoutId (self w)) as [i|] eqn:Ei; simpl;
    try congruence; try rewrite Et; try reflexivity.
  intros Hi. rewrite Hi. reflexivity.
Qed.

Lemma on_window_resize_zero w :
  clientWidth (host w) = 0 ->
  on_window_resize w = (cleared w, Normal tt).
Proof.
  intros Hz. unfold on_window_resize, cleared.
  cbv beta iota zeta delta [bind this assign call container_clientWidth clearTimeout ret].
  destruct (_resizeTimeoutId (self w)); simpl; rewrite Hz; reflexivity.
Qed.

Lemma on_window_resize_alive w st :
  clientWidth (host w) <> 0 -> stage (self w) = Some st ->
  on_window_resize w = (rearmed w st, Normal tt).
Proof.
  intros Hz Hst. apply Z.eqb_neq in Hz. unfold on_window_resize, rearmed, cleared.
  cbv beta iota zeta delta
    [bind this assign call container_clientWidth clearTimeout ret
     stage_do_setWidth setTimeout].
  destruct (_resizeTimeoutId (self w)); simpl; rewrite Hz; simpl; rewrite Hst; reflexivity.
Qed.

Lemma on_window_resize_dead w :
  clientWidth (host w) <> 0 -> stage (self w) = None ->
  on_window_resize w =
    ({| self := set_width (clientWidth (host w)) (self (cleared w));
        host := host (cleared w) |}, TypeError).
Proof.
  intros Hz Hst. apply Z.eqb_neq in Hz. unfold on_window_resize, cleared.
  cbv beta iota zeta delta
    [bind this assign call container_clientWidth clearTimeout ret
     stage_do_setWidth setTimeout throw].
  destruct (_resizeTimeoutId (self w)); simpl; rewrite Hz; simpl; rewrite Hst; reflexivity.
Qed.

Lemma destroy_eq w :
  destroy w =
    (match stage (self w) with
     | Some _ =>
         {| self := set_stage None (self (cleared w));
            host := log_call stage_destroy (host (cleared w)) |}
     | None => cleared w
     end, Normal tt).
Proof.
  unfold destroy, cleared.
  cbv beta iota zeta delta [bind this assign call clearTimeout ret].
  destruct (_resizeTimeoutId (self w)); simpl; destruct (stage (self w)); reflexivity.
Qed.

Lemma resize_timeout_alive w st :
  stage (self w) = Some st ->
  resize_timeout w = _updateWaveform (resampled w st).
Proof.
  intros Hst. unfold resize_timeout, resampled.
  cbv beta iota zeta delta
    [bind this assign call container_clientWidth stage_do_setWidth].
  simpl. rewrite Hst. reflexivity.
Qed.

Lemma resize_timeout_dead w :
  stage (self w) = None ->
  resize_timeout w =
    ({| self := set_data (resample (originalWaveformData (self w)) (clientWidth (host w)))
                  (set_width (clientWidth (host w)) (self w));
        host := log_call (resample_call (clientWidth (host w))) (host w) |},
     TypeError).
Proof.
  intros Hst. unfold resize_timeout.
  cbv beta iota zeta delta
    [bind this assign call container_clientWidth stage_do_setWidth throw].
  simpl. rewrite Hst. reflexivity.
Qed.

Lemma _updateHighlightRect_some w (s e : Q) (r : Rect) :
  _highlightRect (self w) = Some r ->
  _updateHighlightRect s e w =
    ({| self := set_highlightRect
                  (Some (<["width" := VNum (inject_Z (timeToPixels (self w) e - timeToPixels (self w) s))]>
                        (<["x" := VNum (inject_Z (timeToPixels (self w) s))]> r)))
                  (set_highlightRectTimes s e (self w));
        host := log_call highlightLayer_draw (host w) |}, Normal tt).
Proof.
  intros Hr. unfold _updateHighlightRect.
  cbv beta iota zeta delta [bind this assign call]. simpl. rewrite Hr. reflexivity.
Qed.

Lemma _updateWaveform_calls w :
  snd (_updateWaveform w) = Normal tt /\
  calls (host (run _updateWaveform w)) =
    calls (host w) ++ cascade_calls (self w) (currentTime (host w)) /\
  _highlightRect (self (run _updateWaveform w)) =
    recomputed (self w) <$> _highlightRect (self w) /\
  width (self (run _updateWaveform w)) = width (self w) /\
  data (self (run _updateWaveform w)) = data (self w) /\
  timers (host (run _updateWaveform w)) = timers (host w) /\
  _resizeTimeoutId (self (run _updateWaveform w)) = _resizeTimeoutId (self w) /\
  stage (self (run _updateWaveform w)) = stage (self w).
Proof.
  unfold cascade_calls, recomputed. exec.
  destruct w as [v h]; simpl. destruct (_highlightRect v) as [r|] eqn:E; simpl.
  - rewrite E. simpl. repeat rewrite <- app_assoc. simpl. auto 10.
  - repeat rewrite <- app_assoc. simpl. auto 10.
Qed.

Lemma cascade_has_no_resample v (now : Q) :
  List.filter is_resample_call (cascade_calls v now) = [].
Proof. unfold cascade_calls. destruct (_highlightRect v); reflexivity. Qed.

Lemma elapse_idle w (ms : Z) :
  Forall (fun t => is_due (clock (host w) + ms) t = false) (timers (host w)) ->
  elapse ms w =
    {| self := self w;
       host := with_clock (clock (host w) + ms)
                 (with_timers (timers (host w)) (next_timer (host w)) (host w)) |}.
Proof.
  intros Hn. unfold elapse.
  rewrite (filter_none _ _ Hn), (filter_every _ _ Hn). reflexivity.
Qed.

Lemma elapse_one_due w (ms : Z) t :
  timers (host w) = [t] -> is_due (clock (host w) + ms) t = true ->
  elapse ms w =
    run resize_timeout
      {| self := self w;
         host := with_clock (clock (host w) + ms)
                   (with_timers [] (next_timer (host w)) (host w)) |}.
Proof.
  intros Ht Hd. unfold elapse. rewrite Ht. simpl. rewrite Hd. reflexivity.
Qed.

Lemma fire_preserves (P : World D -> Prop) :
  (forall w, P w -> P (run resize_timeout w)) ->
  forall due w, P w -> P (fire due w).
Proof.
  intros Hstep due. induction due as [|t due IH]; intros w Hw; simpl; [exact Hw|].
  apply IH, Hstep, Hw.
Qed.

(** *** The redraw cascade *)

(** C8.  When the resize callback has resampled, the cascade makes these
    calls in this order: redraw the waveform layer; read the player's
    current time and reposition the playhead to it; redraw the highlight
    layer, with the rectangle recomputed, exactly when a rectangle exists;
    update the point markers over [[0, pixelsToTime width)]; update the
    segment markers over the same range. *)
Theorem redraw_cascade w :
  alive w = true ->
  let cw := clientWidth (host w) in
  let v := set_data (resample (originalWaveformData (self w)) cw) (set_width cw (self w)) in
  let w' := run resize_timeout w in
  calls_since w w' =
    [resample_call cw; stage_setWidth cw] ++ cascade_calls v (currentTime (host w)) /\
  cascade_calls v (currentTime (host w)) =
    [waveformLayer_draw; player_getCurrentTime;
     playhead_updatePlayheadTime (currentTime (host w))] ++
    (match _highlightRect (self w) with Some _ => [highlightLayer_draw] | None => [] end) ++
    [points_updatePoints 0 (pixelsToTime v (inject_Z cw));
     segments_updateSegments 0 (pixelsToTime v (inject_Z cw))] /\
  _highlightRect (self w') = recomputed v <$> _highlightRect (self w) /\
  data (self w') = resample (originalWaveformData (self w)) cw.
Proof.
  intros Ha cw v w'. unfold alive in Ha.
  destruct (stage (self w)) as [st|] eqn:Hst; [clear Ha | discriminate].
  subst w'. unfold run. rewrite (resize_timeout_alive w st Hst).
  destruct (_updateWaveform_calls (resampled w st)) as (_ & Hc & Hr & _ & Hd & _).
  fold (run _updateWaveform (resampled w st)).
  repeat split.
  - unfold calls_since. rewrite Hc. simpl. repeat rewrite <- app_assoc.
    rewrite drop_app_length. reflexivity.
  - rewrite Hr. reflexivity.
  - rewrite Hd. reflexivity.
Qed.

(** *** Teardown *)

(** C9.  [destroy] completes without an exception, forgets the timer id and
    removes that timer from the queue, so no timer of the view stays
    armed; a second [destroy] completes as well and changes nothing. *)
Theorem teardown_idempotent w :
  let w' := run destroy w in
  snd (destroy w) = Normal tt /\
  _resizeTimeoutId (self w') = None /\
  stage (self w') = None /\
  (forall i, _resizeTimeoutId (self w) = Some i ->
     forall d, ~ In (i, d) (timers (host w'))) /\
  (single_timer w = true -> timers (host w') = []) /\
  destroy w' = (w', Normal tt).
Proof.
  intros w'.
  destruct (cleared_fields w) as (_ & _ & Hst & _ & _ & Hid & _).
  assert (Ht : timers (host w') = timers (host (cleared w))).
  { subst w'. unfold run. rewrite destroy_eq. simpl. destruct (stage (self w)); reflexivity. }
  assert (Hi' : _resizeTimeoutId (self w') = None).
  { subst w'. unfold run. rewrite destroy_eq. simpl. destruct (stage (self w)); exact Hid. }
  assert (Hs' : stage (self w') = None).
  { subst w'. unfold run. rewrite destroy_eq. simpl.
    destruct (stage (self w)) eqn:E; [reflexivity | congruence]. }
  split; [rewrite destroy_eq; reflexivity|].
  split; [exact Hi'|]. split; [exact Hs'|]. split; [|split].
  - intros i Hi d Hin. rewrite Ht in Hin.
    unfold cleared in Hin. rewrite Hi in Hin. simpl in Hin.
    apply filter_In in Hin. destruct Hin as [_ Hneq].
    unfold timer_id_is in Hneq. simpl in Hneq. rewrite Pos.eqb_refl in Hneq. discriminate.
  - intros Hs. rewrite Ht. apply single_timer_cleared. exact Hs.
  - rewrite destroy_eq, Hs', (cleared_idle w' Hi'). reflexivity.
Qed.

(** *** Resize to width zero *)

(** C1, as the code has it.  A resize notification that finds the
    container at width zero leaves the stored width, the dataset and the
    stage as they are and resamples nothing, but it does cancel a pending
    resample: the timer id is forgotten and the timer removed from the
    queue.  Only when no timer was remembered is the state untouched. *)
Theorem zero_width_resize w :
  clientWidth (host w) = 0 ->
  let w' := run on_window_resize w in
  snd (on_window_resize w) = Normal tt /\
  width (self w') = width (self w) /\
  data (self w') = data (self w) /\
  stage (self w') = stage (self w) /\
  _resizeTimeoutId (self w') = None /\
  calls_since w w' =
    match _resizeTimeoutId (self w) with
    | Some i => [clearTimeout_call i]
    | None => []
    end /\
  List.filter is_resample_call (calls_since w w') = [] /\
  (single_timer w = true -> timers (host w') = []) /\
  (_resizeTimeoutId (self w) = None -> w' = w).
Proof.
  intros Hz w'. subst w'. unfold run. rewrite (on_window_resize_zero w Hz). simpl.
  destruct (cleared_fields w) as (Hw & Hd & Hs & _ & _ & Hi & _).
  assert (Hc : calls_since w (cleared w) =
               match _resizeTimeoutId (self w) with
               | Some i => [clearTimeout_call i] | None => [] end).
  { unfold calls_since, cleared. destruct (_resizeTimeoutId (self w)); simpl.
    - rewrite drop_app_length. reflexivity.
    - rewrite drop_all. reflexivity. }
  repeat split; auto.
  - rewrite Hc. destruct (_resizeTimeoutId (self w)); reflexivity.
  - apply single_timer_cleared.
  - intros Hn. unfold cleared. rewrite Hn. reflexivity.
Qed.

(** The resize handler itself never stores a zero width and never
    resamples: its guard is the one the timer callback lacks. *)
Lemma on_window_resize_guarded w :
  let w' := run on_window_resize w in
  (width (self w') = width (self w) \/
   width (self w') = clientWidth (host w) /\ clientWidth (host w) <> 0) /\
  data (self w') = data (self w).
Proof.
  destruct (cleared_fields w) as (Hw & Hd & _).
  unfold run. destruct (Z.eq_dec (clientWidth (host w)) 0) as [Hz|Hz].
  - rewrite (on_window_resize_zero w Hz). simpl. auto.
  - destruct (stage (self w)) as [st|] eqn:Hst.
    + rewrite (on_window_resize_alive w st Hz Hst). simpl. auto.
    + rewrite (on_window_resize_dead w Hz Hst). simpl. auto.
Qed.

(** *** At most one timer *)

Lemma TimerKept_single w w' :
  TimerKept w w' -> single_timer w = true -> single_timer w' = true.
Proof. intros [Ht Hi]. unfold single_timer. rewrite Ht, Hi. auto. Qed.

Lemma resize_timeout_timer w : TimerKept w (run resize_timeout w).
Proof.
  unfold TimerKept, run. destruct (stage (self w)) as [st|] eqn:Hst.
  - rewrite (resize_timeout_alive w st Hst).
    destruct (_updateWaveform_calls (resampled w st)) as (_ & _ & _ & _ & _ & Ht & Hi & _).
    unfold run in Ht, Hi. rewrite Ht, Hi. split; reflexivity.
  - rewrite (resize_timeout_dead w Hst). split; reflexivity.
Qed.

Lemma on_zoomview_displaying_timer w (s e : Q) :
  TimerKept w (run (on_zoomview_displaying s e) w).
Proof.
  unfold TimerKept, run, on_zoomview_displaying.
  cbv beta iota zeta delta
    [bind this ret _createHighlightRect _updateHighlightRect assign call].
  simpl. destruct (_highlightRect (self w)) as [r|] eqn:Hr; simpl.
  - rewrite Hr. split; reflexivity.
  - split; reflexivity.
Qed.

Lemma single_timer_waiting w (now : Z) (h : Host) :
  single_timer w = true ->
  timers h = List.filter (fun t => negb (is_due now t)) (timers (host w)) ->
  single_timer {| self := self w; host := h |} = true.
Proof.
  unfold single_timer. simpl. intros Hs ->.
  destruct (timers (host w)) as [|t [|t' ts]]; simpl; [reflexivity | | ].
  - destruct (negb (is_due now t)); [exact Hs | reflexivity].
  - destruct (_resizeTimeoutId (self w)); discriminate.
Qed.

Lemma step_single_timer w (e : Event) :
  single_timer w = true -> single_timer (step w e) = true.
Proof.
  intros Hs. destruct e; simpl; try exact Hs.
  - apply (TimerKept_single w); [apply on_zoomview_displaying_timer | exact Hs].
  - pose proof (single_timer_cleared w Hs) as Hc.
    unfold run. destruct (Z.eq_dec (clientWidth (host w)) 0) as [Hz|Hz].
    + rewrite (on_window_resize_zero w Hz). unfold single_timer. simpl. rewrite Hc. reflexivity.
    + destruct (stage (self w)) as [st|] eqn:Hst.
      * rewrite (on_window_resize_alive w st Hz Hst). unfold single_timer. simpl.
        rewrite Hc. simpl. unfold timer_id_is. simpl. apply Pos.eqb_refl.
      * rewrite (on_window_resize_dead w Hz Hst). unfold single_timer. simpl.
        rewrite Hc. reflexivity.
  - pose proof (single_timer_cleared w Hs) as Hc.
    unfold run. rewrite destroy_eq. simpl. unfold single_timer.
    destruct (stage (self w)); simpl; rewrite Hc; reflexivity.
  - unfold elapse. apply fire_preserves.
    + intros w' Hw'. apply (TimerKept_single w'); [apply resize_timeout_timer | exact Hw'].
    + apply (single_timer_waiting w (clock (host w) + ms)); [exact Hs | reflexivity].
Qed.

Lemma reachable_steps (es : list Event) :
  forall w, reachable w -> reachable (steps w es).
Proof.
  induction es as [|e es IH]; intros w Hw; simpl; [exact Hw|].
  apply IH, reach_step, Hw.
Qed.

(** Every state a view goes through has at most one timer armed. *)
Lemma reachable_single_timer w : reachable w -> single_timer w = true.
Proof.
  induction 1 as [d opts h Hh | w e _ IH].
  - unfold single_timer, WaveformOverview. simpl.
    assert (Ht : forall cs h', timers (fold_left (fun h c => log_call c h) cs h') = timers h').
    { induction cs as [|c cs IHc]; intros h'; simpl; [reflexivity | rewrite IHc; reflexivity]. }
    rewrite Ht, Hh. reflexivity.
  - apply step_single_timer, IH.
Qed.

(** *** Debounced resize *)

(** C2.  Two resize notifications at nonzero widths [w1] and [w2], less
    than 500 ms apart and followed by no further resize, lead to exactly
    one resample of the original dataset, at [w2]; the timer armed by the
    first notification is cleared by the second, which arms its own. *)
Theorem resize_pair_debounced w (w1 w2 ms1 ms2 : Z) :
  alive w = true -> single_timer w = true ->
  w1 <> 0 -> w2 <> 0 -> 0 <= ms1 < 500 -> 500 <= ms2 ->
  let a := steps w [container_width_becomes w1; window_resize] in
  let b := steps a [time_passes ms1; container_width_becomes w2; window_resize] in
  let c := step b (time_passes ms2) in
  let i1 := next_timer (host w) in
  List.filter is_resample_call (calls_since w c) = [resample_call w2] /\
  timers (host a) = [(i1, clock (host w) + 500)] /\
  _resizeTimeoutId (self a) = Some i1 /\
  In (clearTimeout_call i1) (calls_since a b) /\
  timers (host b) = [(Pos.succ i1, clock (host w) + ms1 + 500)] /\
  timers (host c) = [] /\
  width (self c) = w2 /\
  data (self c) = resample (originalWaveformData (self w)) w2.
Proof.
  intros Ha Hs Hw1 Hw2 Hms1 Hms2 a b c i1.
  unfold alive in Ha. destruct (stage (self w)) as [st|] eqn:Hst; [clear Ha | discriminate].
  set (a0 := step w (container_width_becomes w1)).
  assert (Ea : a = rearmed a0 st).
  { change (run on_window_resize a0 = rearmed a0 st). unfold run.
    rewrite (on_window_resize_alive a0 st); [reflexivity | exact Hw1 | exact Hst]. }
  assert (Hca : timers (host (cleared a0)) = []).
  { apply single_timer_cleared. exact Hs. }
  assert (Ta : timers (host a) = [(i1, clock (host w) + 500)]).
  { rewrite Ea. simpl. rewrite Hca. reflexivity. }
  assert (Ia : _resizeTimeoutId (self a) = Some i1) by (rewrite Ea; reflexivity).
  assert (Ca : clock (host a) = clock (host w)).
  { rewrite Ea. simpl. destruct (cleared_fields a0) as (_ & _ & _ & _ & _ & _ & _ & Hc & _).
    exact Hc. }
  assert (Na : next_timer (host a) = Pos.succ i1) by (rewrite Ea; reflexivity).
  assert (Sa : stage (self a) = Some {| stage_width := w1; stage_height := stage_height st |})
    by (rewrite Ea; reflexivity).
  set (b0 := step a (time_passes ms1)).
  assert (Eb0 : b0 = {| self := self a;
                        host := with_clock (clock (host w) + ms1)
                                  (with_timers (timers (host a)) (next_timer (host a)) (host a)) |}).
  { subst b0. simpl. rewrite elapse_idle; [rewrite Ca; reflexivity|].
    rewrite Ta, Ca. repeat constructor. unfold is_due. simpl. apply Z.leb_gt. lia. }
  set (b1 := step b0 (container_width_becomes w2)).
  assert (Eb : b = rearmed b1 {| stage_width := w1; stage_height := stage_height st |}).
  { change (run on_window_resize b1 = rearmed b1 {| stage_width := w1; stage_height := stage_height st |}).
    unfold run. rewrite (on_window_resize_alive b1 {| stage_width := w1; stage_height := stage_height st |});
      [reflexivity | exact Hw2 | ].
    subst b1. rewrite Eb0. simpl. exact Sa. }
  assert (Hcb : cleared b1 =
                {| self := set_resizeTimeoutId None (self a);
                   host := log_call (clearTimeout_call i1)
                             (with_timers [] (Pos.succ i1) (host b1)) |}).
  { unfold cleared. subst b1. rewrite Eb0. simpl. rewrite Ia, Ta, Na. simpl.
    unfold timer_id_is. simpl. rewrite Pos.eqb_refl. reflexivity. }
  assert (Tb : timers (host b) = [(Pos.succ i1, clock (host w) + ms1 + 500)]).
  { rewrite Eb. simpl. rewrite Hcb. simpl. subst b1. rewrite Eb0. simpl. rewrite Na. reflexivity. }
  assert (Cb : clock (host b) = clock (host w) + ms1).
  { rewrite Eb. simpl. rewrite Hcb. simpl. subst b1. rewrite Eb0. reflexivity. }
  set (st2 := {| stage_width := w2; stage_height := stage_height st |}).
  set (c0 := {| self := self b;
                host := with_clock (clock (host b) + ms2)
                          (with_timers [] (next_timer (host b)) (host b)) |}).
  assert (Ec : c = run _updateWaveform (resampled c0 st2)).
  { change (elapse ms2 b = run _updateWaveform (resampled c0 st2)).
    rewrite (elapse_one_due b ms2 _ Tb).
    - unfold run. fold c0. rewrite (resize_timeout_alive c0 st2); [reflexivity|].
      subst c0. simpl. rewrite Eb. reflexivity.
    - unfold is_due. simpl. rewrite Cb. apply Z.leb_le. lia. }
  destruct (_updateWaveform_calls (resampled c0 st2))
    as (_ & Kc & _ & Wc & Dc & Tc & _).
  assert (Ka : calls (host a) = calls (host w) ++
                 match _resizeTimeoutId (self w) with
                 | Some i => [clearTimeout_call i] | None => [] end ++
                 [stage_setWidth w1; setTimeout_call i1 500]).
  { rewrite Ea. simpl. unfold cleared, a0. simpl.
    destruct (_resizeTimeoutId (self w)); simpl; repeat rewrite <- app_assoc; reflexivity. }
  assert (Kb : calls (host b) = calls (host a) ++
                 [clearTimeout_call i1; stage_setWidth w2; setTimeout_call (Pos.succ i1) 500]).
  { rewrite Eb. simpl. rewrite Hcb. simpl. subst b1. rewrite Eb0. simpl.
    rewrite Na. repeat rewrite <- app_assoc. reflexivity. }
  assert (Oa : originalWaveformData (self b) = originalWaveformData (self w)).
  { rewrite Eb. simpl. rewrite Hcb. simpl. rewrite Ea. simpl.
    destruct (cleared_fields a0) as (_ & _ & _ & Ho & _). exact Ho. }
  assert (Wb : clientWidth (host b) = w2).
  { rewrite Eb. simpl. rewrite Hcb. reflexivity. }
  rewrite Ec. repeat split.
  - erewrite calls_since_app.
    2:{ rewrite Kc. simpl. rewrite Kb, Ka. repeat rewrite <- app_assoc. reflexivity. }
    repeat rewrite List.filter_app. rewrite cascade_has_no_resample.
    simpl. rewrite Wb. destruct (_resizeTimeoutId (self w)); reflexivity.
  - exact Ta.
  - exact Ia.
  - erewrite calls_since_app; [|exact Kb]. left. reflexivity.
  - exact Tb.
  - rewrite Tc. reflexivity.
  - rewrite Wc. simpl. exact Wb.
  - rewrite Dc. simpl. rewrite Oa, Wb. reflexivity.
Qed.

(** *** The highlight rectangle *)

Lemma same_frame_refl (r : Rect) : same_frame r r.
Proof. intros k _ _. reflexivity. Qed.

Lemma same_frame_trans (r1 r2 r3 : Rect) :
  same_frame r1 r2 -> same_frame r2 r3 -> same_frame r1 r3.
Proof. intros H12 H23 k Hx Hw. rewrite (H23 k Hx Hw). apply H12; assumption. Qed.

Lemma same_frame_setAttrs (r : Rect) (x wd : Value) :
  same_frame r (<["width" := wd]> (<["x" := x]> r)).
Proof.
  intros k Hx Hw. rewrite lookup_insert_ne by congruence.
  rewrite lookup_insert_ne by congruence. reflexivity.
Qed.

Lemma HighlightKept_same w w' :
  _highlightRect (self w') = _highlightRect (self w) -> HighlightKept w w'.
Proof. intros E r Hr. exists r. rewrite E. split; [exact Hr | apply same_frame_refl]. Qed.

Lemma on_zoomview_displaying_kept w (s e : Q) :
  HighlightKept w (run (on_zoomview_displaying s e) w).
Proof.
  intros r Hr. unfold run, on_zoomview_displaying.
  cbv beta iota zeta delta [bind this ret]. simpl. rewrite Hr.
  rewrite (_updateHighlightRect_some w s e r Hr). simpl.
  eexists. split; [reflexivity | apply same_frame_setAttrs].
Qed.

Lemma resize_timeout_kept w : HighlightKept w (run resize_timeout w).
Proof.
  intros r Hr. unfold run. destruct (stage (self w)) as [st|] eqn:Hst.
  - rewrite (resize_timeout_alive w st Hst).
    destruct (_updateWaveform_calls (resampled w st)) as (_ & _ & Hrect & _).
    unfold run in Hrect. rewrite Hrect. simpl. rewrite Hr. simpl.
    eexists. split; [reflexivity | apply same_frame_setAttrs].
  - rewrite (resize_timeout_dead w Hst). simpl.
    exists r. split; [exact Hr | apply same_frame_refl].
Qed.

Lemma on_window_resize_rect w :
  _highlightRect (self (run on_window_resize w)) = _highlightRect (self w).
Proof.
  destruct (cleared_fields w) as (_ & _ & _ & _ & Hr & _).
  unfold run. destruct (Z.eq_dec (clientWidth (host w)) 0) as [Hz|Hz].
  - rewrite (on_window_resize_zero w Hz). exact Hr.
  - destruct (stage (self w)) as [st|] eqn:Hst.
    + rewrite (on_window_resize_alive w st Hz Hst). exact Hr.
    + rewrite (on_window_resize_dead w Hz Hst). exact Hr.
Qed.

Lemma destroy_rect w :
  _highlightRect (self (run destroy w)) = _highlightRect (self w).
Proof.
  destruct (cleared_fields w) as (_ & _ & _ & _ & Hr & _).
  unfold run. rewrite destroy_eq. simpl. destruct (stage (self w)); exact Hr.
Qed.

Lemma step_kept w (e : Event) : HighlightKept w (step w e).
Proof.
  destruct e; simpl;
    try (apply HighlightKept_same; reflexivity).
  - apply on_zoomview_displaying_kept.
  - apply HighlightKept_same, on_window_resize_rect.
  - apply HighlightKept_same, destroy_rect.
  - intros r Hr. unfold elapse.
    apply (fire_preserves (fun w' => exists r', _highlightRect (self w') = Some r' /\ same_frame r r')).
    + intros w' (r' & Hr' & Hf). destruct (resize_timeout_kept w' r' Hr') as (r'' & Hr'' & Hf').
      exists r''. split; [exact Hr'' | eapply same_frame_trans; eassumption].
    + exists r. split; [exact Hr | apply same_frame_refl].
Qed.

Lemma steps_kept (es : list Event) : forall w, HighlightKept w (steps w es).
Proof.
  induction es as [|e es IH]; intros w r Hr; simpl.
  - exists r. split; [exact Hr | apply same_frame_refl].
  - destruct (step_kept w e r Hr) as (r1 & Hr1 & Hf1).
    destruct (IH (step w e) r1 Hr1) as (r2 & Hr2 & Hf2).
    exists r2. split; [exact Hr2 | eapply same_frame_trans; eassumption].
Qed.

(** C4.  The first visible-range notification creates the rectangle with
    y = 11, height = view height - 22 and opacity 0.3, and places it
    horizontally; whatever events follow (further notifications, resamples
    or any other), the rectangle stays and only its [x] and [width]
    attributes may differ from the one first created. *)
Theorem highlight_vertical_frame w (startTime endTime : Q) (es : list Event) :
  _highlightRect (self w) = None ->
  let w1 := step w (zoomview_displaying startTime endTime) in
  exists r r' : Rect,
    _highlightRect (self w1) = Some r /\
    r !! "y" = Some (VNum 11) /\
    r !! "height" = Some (VNum (inject_Z (height (self w) - 22))) /\
    r !! "opacity" = Some (VNum (3 # 10)) /\
    r !! "x" = Some (VNum (inject_Z (timeToPixels (self w) startTime))) /\
    r !! "width" =
      Some (VNum (inject_Z (timeToPixels (self w) endTime - timeToPixels (self w) startTime))) /\
    _highlightRect (self (steps w1 es)) = Some r' /\
    same_frame r r'.
Proof.
  intros Hn w1.
  assert (E : exists r, _highlightRect (self w1) = Some r /\
     r !! "y" = Some (VNum 11) /\
     r !! "height" = Some (VNum (inject_Z (height (self w) - 22))) /\
     r !! "opacity" = Some (VNum (3 # 10)) /\
     r !! "x" = Some (VNum (inject_Z (timeToPixels (self w) startTime))) /\
     r !! "width" =
      Some (VNum (inject_Z (timeToPixels (self w) endTime - timeToPixels (self w) startTime)))).
  { subst w1. simpl. unfold run, on_zoomview_displaying.
    cbv beta iota zeta delta [bind this ret _createHighlightRect _updateHighlightRect assign call].
    simpl. rewrite Hn. simpl. eexists. split; [reflexivity|].
    repeat split; simplify_map_eq; reflexivity. }
  destruct E as (r & Hr & Hy & Hh & Ho & Hx & Hwd).
  destruct (steps_kept es w1 r Hr) as (r' & Hr' & Hf).
  exists r, r'. auto 10.
Qed.

End Properties.

(** ** The mapping in binary64: rounding *)

Section Binary64Facts.
Import Binary64.
Local Open Scope Q_scope.





















Lemma near_weaken (c c' a b : Q) : c <= c' -> near c a b -> near c' a b.
Proof.
  intros Hc [Hb H]. split; [exact Hb|].
  apply (Qle_trans _ _ _ H), Qmult_le_compat_r; lra.
Qed.








End Binary64Facts.

(** *** The two mappings as the code computes them *)

Section Binary64Mapping.

Context {D : Type} {WD : WaveformData D}.

Import Binary64.
Local Open Scope Q_scope.

Implicit Types (v : View D).







End Binary64Mapping.

(** ** The properties at work on the demo track *)

(** A drag far to the right of a view 1000 pixels wide seeks to the time
    of pixel 1000, 100 seconds at 4410 samples per pixel. *)
Lemma pointer_seek_demo :
  List.filter is_seek_call
    (calls_since demo_world (step demo_world (mouse_move 5000))) =
  [player_seek (4410000 # 44100)].
Proof.
  pose proof (proj2 (proj2 (proj2
    (pointer_seek demo_world 5000 (mouse_move 5000)
       (or_intror eq_refl) ltac:(simpl; lia))))) as Hc.
  rewrite Hc. lazy. reflexivity.
Defined.

(** A highlight exists when the resize callback runs; 800 pixels at 5512
    samples each end at 4409600 / 44100 seconds. *)
Lemma redraw_cascade_demo :
  calls_since
    (steps demo_armed [zoomview_displaying 2 5; player_time_becomes 3])
    (run resize_timeout
       (steps demo_armed [zoomview_displaying 2 5; player_time_becomes 3])) =
  [resample_call 800; stage_setWidth 800; waveformLayer_draw;
   player_getCurrentTime; playhead_updatePlayheadTime 3; highlightLayer_draw;
   points_updatePoints 0 (4409600 # 44100);
   segments_updateSegments 0 (4409600 # 44100)].
Proof.
  pose proof (proj1 (redraw_cascade
    (steps demo_armed [zoomview_displaying 2 5; player_time_becomes 3]) eq_refl)) as Hc.
  rewrite Hc. lazy. reflexivity.
Defined.

Lemma teardown_idempotent_demo :
  timers (host (run destroy demo_armed)) = [] /\
  ~ In (1%positive, 500) (timers (host (run destroy demo_armed))).
Proof.
  pose proof (teardown_idempotent demo_armed) as (_ & _ & _ & Hgone & Hnone & _).
  split.
  - apply Hnone. reflexivity.
  - apply (Hgone 1%positive). reflexivity.
Defined.

(** Hiding the container while a resample is pending. *)
Lemma zero_width_resize_demo :
  _resizeTimeoutId
    (self (run on_window_resize (step demo_armed (container_width_becomes 0)))) = None /\
  timers
    (host (run on_window_resize (step demo_armed (container_width_becomes 0)))) = [].
Proof.
  pose proof (zero_width_resize (step demo_armed (container_width_becomes 0)) eq_refl)
    as (_ & _ & _ & _ & Hi & _ & _ & Ht & _).
  split; [exact Hi | apply Ht; reflexivity].
Defined.

Lemma zero_width_resize_cancels_pending :
  ~ zero_width_resize_changes_nothing
      (step demo_armed (container_width_becomes 0)).
Proof.
  unfold zero_width_resize_changes_nothing. intros Hc.
  destruct (Hc eq_refl) as (_ & _ & Hid & _).
  unfold run in Hid.
  rewrite (on_window_resize_zero
             (step demo_armed (container_width_becomes 0)) eq_refl) in Hid.
  destruct (cleared_fields (step demo_armed (container_width_becomes 0)))
    as (_ & _ & _ & _ & _ & Hi & _).
  cbn [fst] in Hid. rewrite Hi in Hid. discriminate Hid.
Qed.

Lemma resize_pair_debounced_demo :
  List.filter is_resample_call
    (calls_since demo_world
       (step
          (steps (steps demo_world [container_width_becomes 800; window_resize])
             [time_passes 100; container_width_becomes 900; window_resize])
          (time_passes 500))) =
  [resample_call 900].
Proof.
  refine (proj1 (resize_pair_debounced demo_world 800 900 100 500 _ _ _ _ _ _)).
  - reflexivity.
  - reflexivity.
  - lia.
  - lia.
  - lia.
  - lia.
Defined.

(** The two notifications of section 8. *)
Lemma highlight_vertical_frame_demo :
  exists r r' : Rect,
    _highlightRect (self (step demo_world (zoomview_displaying 2 5))) = Some r /\
    _highlightRect (self (steps (step demo_world (zoomview_displaying 2 5))
                            [zoomview_displaying 3 6])) = Some r' /\
    r' !! "y" = r !! "y" /\ r' !! "height" = r !! "height".
Proof.
  destruct (highlight_vertical_frame demo_world 2 5 [zoomview_displaying 3 6] eq_refl)
    as (r & r' & Hr & _ & _ & _ & _ & _ & Hr' & Hf).
  exists r, r'. split; [exact Hr | split; [exact Hr' |]].
  split; apply Hf; discriminate.
Defined.

(** C3, at its failing input.  The container is resized to 800 pixels and
    the view notified; before the 500 ms are over the container is hidden
    (width zero, no notification).  The callback then stores width zero
    and replaces the dataset by the original resampled to width zero. *)
Theorem hidden_container_resampled_to_zero :
  let before := demo_armed in
  let after := steps before [container_width_becomes 0; time_passes 500] in
  reachable after /\
  width (self before) = 800 /\
  data (self before) = resample demo_track 1000 /\
  width (self after) = 0 /\
  data (self after) = resample demo_track 0 /\
  List.filter is_resample_call (calls_since before after) = [resample_call 0].
Proof.
  intros before after. split.
  - subst after before. apply reachable_steps.
    unfold demo_armed. apply reachable_steps.
    unfold demo_world. apply reach_new. reflexivity.
  - repeat split; reflexivity.
Qed.

(** ** The mapping in binary64 on the demo tracks *)

Section Binary64Demo.

Import Binary64.
Local Open Scope Q_scope.


(** It comes back as 6: the time of pixel 7 is rounded down, and the
    floor of 6.999... is taken. *)
Lemma round_trip_loses_a_pixel :
  pixelsToTime (self demo_world) (Finite 7) = Finite (3152519739159347 # 4503599627370496) /\
  timeToPixels (self demo_world) (pixelsToTime (self demo_world) (Finite 7)) = Finite 6.
Proof. split; reflexivity. Qed.


(** Between two pixels the round trip ends more than one pixel away:
    [123 + 2^-46], the binary64 number after 123, comes back as 122. *)
Lemma round_trip_fraction_beyond_one :
  ~ round_trip_within_one (self demo_fractional) (8655355533852673 # 70368744177664).
Proof.
  intros H.
  assert (E : timeToPixels (self demo_fractional)
                (pixelsToTime (self demo_fractional)
                   (Finite (8655355533852673 # 70368744177664)))
              = Finite 122) by reflexivity.
  unfold round_trip_within_one in H. rewrite E in H.
  apply (H ltac:(apply Qle_bool_iff; reflexivity) eq_refl eq_refl). reflexivity.
Qed.

(** A pixel value near [10^306] overflows on its way to a time. *)
Lemma round_trip_overflows :
  ~ round_trip_within_one (self demo_hidden) (inject_Z (6413338752028713 * 2 ^ 964)).
Proof.
  intros H.
  assert (E : timeToPixels (self demo_hidden)
                (pixelsToTime (self demo_hidden)
                   (Finite (inject_Z (6413338752028713 * 2 ^ 964))))
              = Infinity false) by reflexivity.
  unfold round_trip_within_one in H. rewrite E in H.
  exact (H ltac:(apply Qle_bool_iff; reflexivity) eq_refl eq_refl).
Qed.



(** The kernel's binary64 arithmetic gives the same numbers on these
    inputs. *)
Lemma kernel_floats_agree :
  floor (of_float (float_quotient (double 44100 0) (double 4410 0)
                     (float_pixelsToTime (double 44100 0) (double 4410 0)
                        (double 6308277914720929 1))))
    = Finite 12616555829441860 /\
  floor (of_float (float_quotient (double 44100 0) (double 6550626395498742 (-45))
                     (float_pixelsToTime (double 44100 0) (double 6550626395498742 (-45))
                        (double 8655355533852673 (-46)))))
    = Finite 122 /\
  of_float (float_pixelsToTime (double 44100 0) (double 512 0)
              (double 6413338752028713 964))
    = Infinity false /\
  floor (of_float (float_quotient (double 44100 0) (double 512 0)
                     (double 5019522196927769 (-57))))
    = Finite 3 /\
  floor (of_float (float_quotient (double 44100 0) (double 4410 0)
                     (float_pixelsToTime (double 44100 0) (double 4410 0) (double 7 0))))
    = Finite 6.
Proof. repeat split; reflexivity. Qed.

(** The floats above are the numbers the lemmas before them use. *)
Lemma kernel_floats_inputs :
  of_float (double 6308277914720929 1) = Finite 12616555829441858 /\
  of_float (double 6550626395498742 (-45)) = Finite (scale (data (self demo_fractional))) /\
  of_float (double 8655355533852673 (-46)) = Finite (8655355533852673 # 70368744177664) /\
  of_float (double 6413338752028713 964) = Finite (inject_Z (6413338752028713 * 2 ^ 964)) /\
  of_float (double 5019522196927769 (-57)) = Finite (5019522196927769 # 144115188075855872).
Proof. repeat split; reflexivity. Qed.

End Binary64Demo.

(** ** Further properties *)

Section MoreProperties.

Context {D : Type} {WD : WaveformData D}.
Implicit Types (v : View D) (w : World D).

(** *** More equations of the handlers *)

Lemma _updateWaveform_eq w : _updateWaveform w = (redrawn w, Normal tt).
Proof.
  unfold _updateWaveform, redrawn, cascade_calls.
  cbv beta iota zeta delta
    [bind this assign call ret player_do_getCurrentTime _updateHighlightRect].
  destruct w as [v h]. simpl. destruct (_highlightRect v) as [r|] eqn:E; simpl.
  - rewrite E. reflexivity.
  - reflexivity.
Qed.

Lemma on_zoomview_displaying_first w (s e : Q) :
  _highlightRect (self w) = None ->
  on_zoomview_displaying s e w = (highlighted w s e, Normal tt).
Proof.
  intros Hn. unfold on_zoomview_displaying, highlighted.
  cbv beta iota zeta delta
    [bind this assign call ret _createHighlightRect _updateHighlightRect].
  simpl. rewrite Hn. reflexivity.
Qed.

Lemma on_zoomview_displaying_next w (s e : Q) (r : Rect) :
  _highlightRect (self w) = Some r ->
  on_zoomview_displaying s e w = _updateHighlightRect s e w.
Proof.
  intros Hr. unfold on_zoomview_displaying.
  cbv beta iota zeta delta [bind this ret]. simpl. rewrite Hr. reflexivity.
Qed.


Lemma resize_timeout_run w :
  run resize_timeout w =
    match stage (self w) with
    | Some st => redrawn (resampled w st)
    | None =>
        {| self := set_data (resample (originalWaveformData (self w)) (clientWidth (host w)))
                     (set_width (clientWidth (host w)) (self w));
           host := log_call (resample_call (clientWidth (host w))) (host w) |}
    end.
Proof.
  unfold run. destruct (stage (self w)) as [st|] eqn:Hst.
  - rewrite (resize_timeout_alive w st Hst), _updateWaveform_eq. reflexivity.
  - rewrite (resize_timeout_dead w Hst). reflexivity.
Qed.

Lemma on_window_resize_run w :
  run on_window_resize w =
    if clientWidth (host w) =? 0 then cleared w
    else match stage (self w) with
         | Some st => rearmed w st
         | None => {| self := set_width (clientWidth (host w)) (self (cleared w));
                      host := host (cleared w) |}
         end.
Proof.
  unfold run. destruct (Z.eqb_spec (clientWidth (host w)) 0) as [Hz|Hz].
  - rewrite (on_window_resize_zero w Hz). reflexivity.
  - destruct (stage (self w)) as [st|] eqn:Hst.
    + rewrite (on_window_resize_alive w st Hz Hst). reflexivity.
    + rewrite (on_window_resize_dead w Hz Hst). reflexivity.
Qed.

Lemma destroy_run w :
  run destroy w =
    match stage (self w) with
    | Some _ => {| self := set_stage None (self (cleared w));
                   host := log_call stage_destroy (host (cleared w)) |}
    | None => cleared w
    end.
Proof. unfold run. rewrite destroy_eq. reflexivity. Qed.

Lemma on_zoomview_displaying_run w (s e : Q) :
  run (on_zoomview_displaying s e) w =
    match _highlightRect (self w) with
    | None => highlighted w s e
    | Some r =>
        {| self := set_highlightRect
                     (Some (<["width" := VNum (inject_Z (timeToPixels (self w) e
                                                         - timeToPixels (self w) s))]>
                           (<["x" := VNum (inject_Z (timeToPixels (self w) s))]> r)))
                     (set_highlightRectTimes s e (self w));
           host := log_call highlightLayer_draw (host w) |}
    end.
Proof.
  unfold run. destruct (_highlightRect (self w)) as [r|] eqn:Hr.
  - rewrite (on_zoomview_displaying_next w s e r Hr),
      (_updateHighlightRect_some w s e r Hr). reflexivity.
  - rewrite (on_zoomview_displaying_first w s e Hr). reflexivity.
Qed.

Ltac fields :=
  cbn [self host fst snd
       originalWaveformData options width height data _resizeTimeoutId stage
       _highlightRect _highlightRectStartTime _highlightRectEndTime
       set_width set_data set_resizeTimeoutId set_stage set_highlightRect
       set_highlightRectTimes
       clientWidth clientHeight currentTime clock timers next_timer calls
       log_call with_timers with_clientWidth with_currentTime with_clock] in *.

(** Turns a step into the state its handler leaves, case by case. *)
Ltac handler_cases w :=
  try rewrite (on_zoomview_displaying_run w);
  try rewrite (on_window_resize_run w);
  try rewrite (destroy_run w);
  try rewrite (resize_timeout_run w);
  unfold rearmed, resampled, redrawn, highlighted; unfold cleared;
  fields;
  repeat (match goal with
          | |- context [if ?b then _ else _] => destruct b eqn:?
          | |- context [match stage (self w) with _ => _ end] =>
              destruct (stage (self w)) eqn:?
          | |- context [match _highlightRect (self w) with _ => _ end] =>
              destruct (_highlightRect (self w)) eqn:?
          | |- context [match _resizeTimeoutId (self w) with _ => _ end] =>
              destruct (_resizeTimeoutId (self w)) eqn:?
          end; fields).

(** *** What is fixed at construction *)

Lemma step_fixed w (e : Event) :
  originalWaveformData (self (step w e)) = originalWaveformData (self w) /\
  options (self (step w e)) = options (self w) /\
  height (self (step w e)) = height (self w).
Proof.
  destruct e; cbn [step]; try (repeat split; reflexivity).
  - handler_cases w; repeat split; reflexivity.
  - handler_cases w; repeat split; reflexivity.
  - handler_cases w; repeat split; reflexivity.
  - unfold elapse.
    apply (fire_preserves (fun u =>
      originalWaveformData (self u) = originalWaveformData (self w) /\
      options (self u) = options (self w) /\
      height (self u) = height (self w))); [| repeat split; reflexivity].
    intros u (Ho & Hp & Hh). rewrite <- Ho, <- Hp, <- Hh.
    handler_cases u; repeat split; reflexivity.
Qed.


Lemma steps_fixed (es : list Event) : forall w,
  originalWaveformData (self (steps w es)) = originalWaveformData (self w) /\
  options (self (steps w es)) = options (self w) /\
  height (self (steps w es)) = height (self w).
Proof.
  induction es as [|e es IH]; intros w; simpl; [auto|].
  destruct (IH (step w e)) as (Ho & Hp & Hh).
  destruct (step_fixed w e) as (Ho' & Hp' & Hh').
  rewrite Ho, Hp, Hh. auto.
Qed.

(** X1.  The original dataset, the options and the height are fixed when
    the view is built: the height is the container's, or the configured
    one when the container reports none, and no event changes any of the
    three, a resize included. *)
Theorem fixed_at_construction (waveformData : D) (opts : Options) (h : Host)
    (es : list Event) :
  let w := steps (WaveformOverview waveformData opts h) es in
  originalWaveformData (self w) = waveformData /\
  options (self w) = opts /\
  getHeight (self w) = (if clientHeight h =? 0 then opt_height opts else clientHeight h).
Proof.
  intros w. subst w.
  destruct (steps_fixed es (WaveformOverview waveformData opts h)) as (Ho & Hp & Hh).
  unfold getHeight. rewrite Ho, Hp, Hh. auto.
Qed.

(** *** Where the active dataset comes from *)

Lemma step_data w (e : Event) :
  data (self (step w e)) = data (self w) \/
  exists n, data (self (step w e)) = resample (originalWaveformData (self w)) n.
Proof.
  destruct e; cbn [step]; try (left; reflexivity).
  - handler_cases w; left; reflexivity.
  - handler_cases w; left; reflexivity.
  - handler_cases w; left; reflexivity.
  - unfold elapse.
    apply (fire_preserves (fun u =>
      originalWaveformData (self u) = originalWaveformData (self w) /\
      (data (self u) = data (self w) \/
       exists n, data (self u) = resample (originalWaveformData (self w)) n)));
      [| split; [reflexivity | left; reflexivity]].
    intros u (Ho & _). rewrite <- Ho.
    handler_cases u; (split; [reflexivity | right; eexists; reflexivity]).
Qed.


Lemma steps_data (o : D) (es : list Event) : forall w,
  originalWaveformData (self w) = o ->
  data (self w) = o \/ (exists n, data (self w) = resample o n) ->
  data (self (steps w es)) = o \/ exists n, data (self (steps w es)) = resample o n.
Proof.
  induction es as [|e es IH]; intros w Ho Hd; simpl; [exact Hd|].
  apply IH.
  - destruct (step_fixed w e) as (Ho' & _). congruence.
  - destruct (step_data w e) as [Hs | [n Hn]].
    + rewrite Hs. exact Hd.
    + right. exists n. rewrite Hn, Ho. reflexivity.
Qed.

(** X2.  The active dataset is always the original itself or the original
    resampled once: a resample never starts from an earlier resample. *)
Theorem dataset_from_original (waveformData : D) (opts : Options) (h : Host)
    (es : list Event) :
  let w := steps (WaveformOverview waveformData opts h) es in
  getWaveformData (self w) = waveformData \/
  exists n, getWaveformData (self w) = resample waveformData n.
Proof.
  intros w. subst w. unfold getWaveformData. apply steps_data; [reflexivity|].
  cbn [WaveformOverview self data]. destruct (clientWidth h =? 0); cbn [negb].
  - left. reflexivity.
  - right. eexists. reflexivity.
Qed.

(** *** Who calls what *)

Lemma calls_logged (cs : list Call) : forall h : Host,
  calls (fold_left (fun h c => log_call c h) cs h) = calls h ++ cs.
Proof.
  induction cs as [|c cs IH]; intros h; simpl.
  - symmetry. apply app_nil_r.
  - rewrite IH. simpl. rewrite <- app_assoc. reflexivity.
Qed.

Ltac emits :=
  first
    [ exists []; split; [symmetry; apply app_nil_r | reflexivity]
    | eexists; split; [repeat rewrite <- app_assoc; reflexivity | reflexivity] ].

Lemma resize_timeout_calls w :
  exists l, calls (host (run resize_timeout w)) = calls (host w) ++ l /\
            forallb (may_call (time_passes 0)) l = true.
Proof.
  rewrite resize_timeout_run. destruct (stage (self w)) as [st|].
  - unfold redrawn. cbn [host]. rewrite calls_logged.
    unfold resampled, cascade_calls. fields.
    destruct (_highlightRect (self w)); emits.
  - fields. emits.
Qed.

Lemma step_calls w (e : Event) :
  exists l, calls (host (step w e)) = calls (host w) ++ l /\
            forallb (may_call e) l = true.
Proof.
  destruct e; cbn [step].
  1-3: unfold run; cbn; emits.
  - handler_cases w; emits.
  - handler_cases w; emits.
  - unfold run; cbn; emits.
  - unfold run; cbn; emits.
  - handler_cases w; emits.
  - fields. emits.
  - fields. emits.
  - unfold elapse.
    apply (fire_preserves (fun u =>
      exists l, calls (host u) = calls (host w) ++ l /\
                forallb (may_call (time_passes ms)) l = true)).
    + intros u (l & Hl & Hok).
      destruct (resize_timeout_calls u) as (l' & Hl' & Hok').
      exists (l ++ l'). split.
      * rewrite Hl', Hl, app_assoc. reflexivity.
      * rewrite forallb_app, Hok. exact Hok'.
    + fields. emits.
Qed.


Lemma filter_excluded (p q : Call -> bool) (l : list Call) :
  (forall c, q c = true -> p c = false) ->
  forallb q l = true -> List.filter p l = [].
Proof.
  intros Hpq. induction l as [|c l IH]; simpl; [reflexivity|].
  intros Hq. apply andb_prop in Hq. destruct Hq as [Hc Hl].
  rewrite (Hpq c Hc). apply IH, Hl.
Qed.

Lemma steps_calls_app (es : list Event) : forall w,
  calls (host (steps w es)) = calls (host w) ++ calls_since w (steps w es).
Proof.
  induction es as [|e es IH]; intros w; simpl.
  - unfold calls_since. rewrite drop_all. symmetry. apply app_nil_r.
  - destruct (step_calls w e) as (l & Hl & _).
    rewrite (IH (step w e)), Hl, <- app_assoc.
    f_equal. symmetry. apply calls_since_app.
    rewrite (IH (step w e)), Hl, <- app_assoc. reflexivity.
Qed.

Lemma calls_since_step w (e : Event) (es : list Event) :
  calls_since w (steps w (e :: es)) =
  calls_since w (step w e) ++ calls_since (step w e) (steps (step w e) es).
Proof.
  apply calls_since_app. simpl.
  rewrite (steps_calls_app es (step w e)).
  destruct (step_calls w e) as (l & Hl & _).
  rewrite (calls_since_app w (step w e) l Hl), Hl, <- app_assoc. reflexivity.
Qed.

(** *** Seeking *)

Lemma step_seeks w (e : Event) :
  List.filter is_seek_call (calls_since w (step w e)) =
  match e with
  | mouse_down x | mouse_move x =>
      [player_seek (pixelsToTime (self w)
                      (Utils.clamp x 0 (inject_Z (width (self w)))))]
  | _ => []
  end.
Proof.
  assert (Hq : forall e', is_pointer_event e' = false ->
            List.filter is_seek_call (calls_since w (step w e')) = []).
  { intros e' He'. destruct (step_calls w e') as (l & Hl & Hok).
    rewrite (calls_since_app w (step w e') l Hl).
    apply (filter_excluded _ (may_call e')); [| exact Hok].
    intros c Hc. destruct e', c; try discriminate; reflexivity. }
  destruct e; try (apply Hq; reflexivity).
  - erewrite calls_since_app; [| unfold run; cbn; rewrite <- app_assoc; reflexivity].
    reflexivity.
  - erewrite calls_since_app; [| unfold run; cbn; rewrite <- app_assoc; reflexivity].
    reflexivity.
Qed.

(** X4.  Over any sequence of events the view makes exactly one seek
    request per pointer press or drag-move and none for anything else:
    player notifications, resizes, redraws and teardown never seek. *)
Theorem one_seek_per_pointer_event (es : list Event) : forall w,
  length (List.filter is_seek_call (calls_since w (steps w es))) =
  length (List.filter is_pointer_event es).
Proof.
  induction es as [|e es IH]; intros w.
  - unfold calls_since. simpl. rewrite drop_all. reflexivity.
  - rewrite calls_since_step, List.filter_app, length_app, (IH (step w e)), step_seeks.
    destruct e; reflexivity.
Qed.


(** *** Resampling *)

Lemma step_data_kept w (e : Event) :
  is_time_passes e = false -> data (self (step w e)) = data (self w).
Proof.
  destruct e; cbn [step is_time_passes]; intros He; try discriminate; try reflexivity.
  - handler_cases w; reflexivity.
  - handler_cases w; reflexivity.
  - handler_cases w; reflexivity.
Qed.

Lemma step_resamples_not w (e : Event) :
  is_time_passes e = false ->
  List.filter is_resample_call (calls_since w (step w e)) = [].
Proof.
  intros He. destruct (step_calls w e) as (l & Hl & Hok).
  rewrite (calls_since_app w (step w e) l Hl).
  apply (filter_excluded _ (may_call e)); [| exact Hok].
  intros c Hc. destruct e, c; try discriminate; reflexivity.
Qed.

(** X5.  Only the debounce timer resamples: over any sequence of events in
    which no time passes there is no resample call and the active dataset
    stays the one it was, whatever is resized, notified, dragged or torn
    down. *)
Theorem only_the_timer_resamples (es : list Event) : forall w,
  forallb (fun e => negb (is_time_passes e)) es = true ->
  List.filter is_resample_call (calls_since w (steps w es)) = [] /\
  getWaveformData (self (steps w es)) = getWaveformData (self w).
Proof.
  unfold getWaveformData.
  induction es as [|e es IH]; intros w Hes.
  - unfold calls_since. simpl. rewrite drop_all. auto.
  - simpl in Hes. apply andb_prop in Hes. destruct Hes as [He Hes].
    apply negb_true_iff in He.
    destruct (IH (step w e) Hes) as (Hc & Hd).
    rewrite calls_since_step, List.filter_app, Hc, (step_resamples_not w e He).
    split; [reflexivity|]. simpl. rewrite Hd. apply step_data_kept, He.
Qed.

(** *** No notification, no highlight *)

Lemma resize_timeout_plain w :
  _highlightRect (self w) = None ->
  _highlightRect (self (run resize_timeout w)) = None /\
  exists l, calls (host (run resize_timeout w)) = calls (host w) ++ l /\
            List.filter is_highlight_call l = [].
Proof.
  intros Hn. rewrite resize_timeout_run. destruct (stage (self w)) as [st|].
  - unfold redrawn. cbn [host self]. rewrite calls_logged.
    unfold resampled, cascade_calls. fields. rewrite Hn.
    split; [exact Hn | emits].
  - fields. split; [exact Hn | emits].
Qed.

Lemma step_plain w (e : Event) :
  _highlightRect (self w) = None -> is_zoomview_event e = false ->
  _highlightRect (self (step w e)) = None /\
  List.filter is_highlight_call (calls_since w (step w e)) = [].
Proof.
  intros Hn He.
  assert (Hq : is_time_passes e = false ->
               List.filter is_highlight_call (calls_since w (step w e)) = []).
  { intros Ht. destruct (step_calls w e) as (l & Hl & Hok).
    rewrite (calls_since_app w (step w e) l Hl).
    apply (filter_excluded _ (may_call e)); [| exact Hok].
    intros c Hc. destruct e, c; try discriminate; reflexivity. }
  destruct e; cbn [is_zoomview_event] in He; try discriminate;
    try (split; [| apply Hq; reflexivity]); cbn [step]; try exact Hn.
  - handler_cases w; first [exact Hn | congruence].
  - handler_cases w; first [exact Hn | congruence].
  - unfold elapse.
    match goal with
    | |- context [fire ?due ?w0] =>
        assert (Hf : _highlightRect (self (fire due w0)) = None /\
                     exists l, calls (host (fire due w0)) = calls (host w) ++ l /\
                               List.filter is_highlight_call l = [])
    end.
    { apply (fire_preserves (fun u =>
        _highlightRect (self u) = None /\
        exists l, calls (host u) = calls (host w) ++ l /\
                  List.filter is_highlight_call l = [])).
      - intros u (Hu & l & Hl & Hno).
        destruct (resize_timeout_plain u Hu) as (Hu' & l' & Hl' & Hno').
        split; [exact Hu'|]. exists (l ++ l'). split.
        + rewrite Hl', Hl, app_assoc. reflexivity.
        + rewrite List.filter_app, Hno, Hno'. reflexivity.
      - fields. split; [exact Hn | emits]. }
    destruct Hf as (Hr & l & Hl & Hno). split; [exact Hr|].
    rewrite (calls_since_app _ _ l Hl). exact Hno.
Qed.

(** X6.  Until the first visible-range notification arrives no highlight
    rectangle exists and the highlight layer is never touched, whatever
    else happens, a resample and its redraw cascade included. *)
Theorem no_notification_no_highlight (es : list Event) : forall w,
  _highlightRect (self w) = None ->
  forallb (fun e => negb (is_zoomview_event e)) es = true ->
  _highlightRect (self (steps w es)) = None /\
  List.filter is_highlight_call (calls_since w (steps w es)) = [].
Proof.
  induction es as [|e es IH]; intros w Hn Hes.
  - unfold calls_since. simpl. rewrite drop_all. auto.
  - simpl in Hes. apply andb_prop in Hes. destruct Hes as [He Hes].
    apply negb_true_iff in He.
    destruct (step_plain w e Hn He) as (Hn' & Hc').
    destruct (IH (step w e) Hn' Hes) as (Hr & Hc).
    rewrite calls_since_step, List.filter_app, Hc, Hc'. auto.
Qed.


(** *** After teardown *)

Ltac logged :=
  first
    [ rewrite (calls_since_app _ _ []); [reflexivity | fields; symmetry; apply app_nil_r]
    | erewrite calls_since_app;
        [| fields; repeat rewrite <- app_assoc; reflexivity]; reflexivity ].

Lemma destroy_torn_down w : single_timer w = true -> torn_down (run destroy w).
Proof.
  intros Hs. pose proof (single_timer_cleared w Hs) as Hc.
  destruct (cleared_fields w) as (_ & _ & Hst & _ & _ & Hid & _).
  rewrite destroy_run. unfold torn_down.
  destruct (stage (self w)); fields; auto.
Qed.

Lemma step_torn_down w (e : Event) :
  torn_down w ->
  torn_down (step w e) /\
  data (self (step w e)) = data (self w) /\
  List.filter is_resize_work (calls_since w (step w e)) = [].
Proof.
  unfold torn_down. intros (Hst & Ht & Hid).
  destruct e; cbn [step].
  1-3: unfold run; cbn; repeat split; try assumption; logged.
  - handler_cases w; repeat split; try assumption; try congruence; logged.
  - handler_cases w; repeat split; try assumption; try congruence; logged.
  - unfold run; cbn; repeat split; try assumption; logged.
  - unfold run; cbn; repeat split; try assumption; logged.
  - handler_cases w; repeat split; try assumption; try congruence; logged.
  - fields. repeat split; try assumption; logged.
  - fields. repeat split; try assumption; logged.
  - rewrite elapse_idle by (rewrite Ht; constructor).
    fields. repeat split; try assumption; logged.
Qed.

(** X7.  Once [destroy] has run the view is inert as far as resizing goes:
    whatever events still reach it, the stage stays [null], no timer is
    armed, the dataset stays as it is, and it makes no resample, timer,
    stage, waveform or marker call. *)
Theorem inert_after_teardown w (es : list Event) :
  single_timer w = true ->
  let w0 := step w teardown in
  torn_down (steps w0 es) /\
  getWaveformData (self (steps w0 es)) = getWaveformData (self w0) /\
  List.filter is_resize_work (calls_since w0 (steps w0 es)) = [].
Proof.
  intros Hs w0.
  assert (H0 : torn_down w0) by (apply destroy_torn_down, Hs).
  clearbody w0. clear Hs. revert w0 H0. unfold getWaveformData.
  induction es as [|e es IH]; intros u Hu.
  - unfold calls_since. simpl. rewrite drop_all. auto.
  - destruct (step_torn_down u e Hu) as (Hu' & Hd' & Hc').
    destruct (IH (step u e) Hu') as (Ht & Hd & Hc).
    rewrite calls_since_step, List.filter_app, Hc, Hc'. simpl.
    rewrite Hd, Hd'. auto.
Qed.

(** X8.  A resize notification that reaches a destroyed view at a nonzero
    width stores the width and then throws a [TypeError] at
    [stage.setWidth]; nothing is logged and no timer is armed.  At width
    zero it returns normally and changes nothing. *)
Theorem resize_after_teardown w :
  single_timer w = true ->
  let w0 := run destroy w in
  (clientWidth (host w) <> 0 ->
     snd (on_window_resize w0) = TypeError /\
     getWidth (self (run on_window_resize w0)) = clientWidth (host w) /\
     host (run on_window_resize w0) = host w0) /\
  (clientWidth (host w) = 0 -> on_window_resize w0 = (w0, Normal tt)).
Proof.
  intros Hs w0. destruct (destroy_torn_down w Hs) as (Hst & Ht & Hid). fold w0 in Hst, Ht, Hid.
  assert (Hcw : clientWidth (host w0) = clientWidth (host w)).
  { unfold w0. rewrite destroy_run.
    destruct (cleared_fields w) as (_ & _ & _ & _ & _ & _ & Hc & _).
    destruct (stage (self w)); fields; exact Hc. }
  split; intros Hz.
  - rewrite <- Hcw in Hz. unfold run, getWidth.
    rewrite (on_window_resize_dead w0 Hz Hst), (cleared_idle w0 Hid). fields.
    rewrite Hcw. auto.
  - rewrite <- Hcw in Hz.
    rewrite (on_window_resize_zero w0 Hz), (cleared_idle w0 Hid). reflexivity.
Qed.


(** *** The mapping is monotone *)

Lemma scaled_le (a b k d : Q) :
  (0 < k)%Q -> (0 < d)%Q -> (a <= b)%Q -> (a * k / d <= b * k / d)%Q.
Proof.
  intros Hk Hd Hab. unfold Qdiv.
  apply Qmult_le_compat_r; [| apply Qlt_le_weak, Qinv_lt_0_compat, Hd].
  apply Qmult_le_compat_r; [exact Hab | apply Qlt_le_weak, Hk].
Qed.


Lemma pixelsToTime_monotone v (p1 p2 : Q) :
  (0 < sample_rate (data v))%Q -> (0 < scale (data v))%Q ->
  (p1 <= p2)%Q -> (pixelsToTime v p1 <= pixelsToTime v p2)%Q.
Proof. intros Hr Hs Hp. unfold pixelsToTime. apply scaled_le; assumption. Qed.



(** *** Seek times *)

Lemma clamp_inside (x lo hi : Q) :
  (lo <= x <= hi)%Q -> Utils.clamp x lo hi = x.
Proof.
  intros [Hlo Hhi]. unfold Utils.clamp.
  apply Qle_bool_iff in Hlo. apply Qle_bool_iff in Hhi.
  rewrite Hlo, Hhi. reflexivity.
Qed.

(** X11.  With a positive sample rate and scale and a view of width
    [width >= 0], the one seek a press or drag-move makes is to a time
    between 0 and the time of the view's right edge; a coordinate inside
    the view is converted as it is. *)
Theorem seek_time_in_range w (x : Q) (e : Event) :
  e = mouse_down x \/ e = mouse_move x ->
  0 <= width (self w) ->
  (0 < sample_rate (data (self w)))%Q -> (0 < scale (data (self w)))%Q ->
  exists t : Q,
    List.filter is_seek_call (calls_since w (step w e)) = [player_seek t] /\
    (0 <= t <= pixelsToTime (self w) (inject_Z (getWidth (self w))))%Q /\
    ((0 <= x <= inject_Z (width (self w)))%Q -> t = pixelsToTime (self w) x).
Proof.
  intros He Hw Hr Hs.
  exists (pixelsToTime (self w) (Utils.clamp x 0 (inject_Z (width (self w))))).
  assert (Hc : (0 <= Utils.clamp x 0 (inject_Z (width (self w)))
                <= inject_Z (width (self w)))%Q).
  { apply clamp_range. change 0%Q with (inject_Z 0). rewrite <- Zle_Qle. exact Hw. }
  split; [| split].
  - rewrite step_seeks. destruct He as [-> | ->]; reflexivity.
  - unfold getWidth. split.
    + assert (H0 : (pixelsToTime (self w) 0 == 0)%Q).
      { unfold pixelsToTime, Qdiv. rewrite !Qmult_0_l. reflexivity. }
      apply (Qle_trans _ (pixelsToTime (self w) 0)); [rewrite H0; apply Qle_refl |].
      apply pixelsToTime_monotone; [assumption | assumption | apply Hc].
    + apply pixelsToTime_monotone; [assumption | assumption | apply Hc].
  - intros Hin. rewrite (clamp_inside _ _ _ Hin). reflexivity.
Qed.


(** *** The highlight follows the dataset *)

Lemma resize_timeout_in_place w (st : Stage) :
  stage (self w) = Some st ->
  (exists st', stage (self (run resize_timeout w)) = Some st') /\
  highlight_in_place (run resize_timeout w).
Proof.
  intros Hst. rewrite resize_timeout_run, Hst. unfold redrawn, resampled. fields.
  destruct (_highlightRect (self w)) as [r|] eqn:Hr; fields.
  - split; [eexists; reflexivity|].
    intros r' Hr'. fields. injection Hr' as <-. unfold recomputed, timeToPixels. fields.
    split; simplify_map_eq; reflexivity.
  - split; [eexists; reflexivity|].
    intros r' Hr'. fields. congruence.
Qed.

Lemma step_in_place w (e : Event) :
  single_timer w = true ->
  (stage (self w) = None -> timers (host w) = []) ->
  highlight_in_place w ->
  (stage (self (step w e)) = None -> timers (host (step w e)) = []) /\
  highlight_in_place (step w e).
Proof.
  intros Hs Hdead Hin.
  pose proof (single_timer_cleared w Hs) as Hc. unfold cleared in Hc.
  destruct e; cbn [step]; try (split; assumption).
  - rewrite on_zoomview_displaying_run.
    destruct (_highlightRect (self w)) as [r|] eqn:Hr; unfold highlighted; fields.
    + split; [exact Hdead|]. intros r' Hr'. fields. injection Hr' as <-.
      unfold timeToPixels. fields. split; simplify_map_eq; reflexivity.
    + split; [exact Hdead|]. intros r' Hr'. fields. injection Hr' as <-.
      unfold timeToPixels. fields. split; simplify_map_eq; reflexivity.
  - rewrite on_window_resize_run. unfold rearmed, cleared.
    destruct (clientWidth (host w) =? 0);
      [| destruct (stage (self w)) eqn:Hst];
      destruct (_resizeTimeoutId (self w)); fields;
      (split; [first [discriminate | intros _; exact Hc | exact Hdead | auto] | exact Hin]).
  - rewrite destroy_run. unfold cleared.
    destruct (stage (self w)) eqn:Hst; destruct (_resizeTimeoutId (self w)); fields;
      (split; [first [intros _; exact Hc | exact Hdead | auto] | exact Hin]).
  - destruct (stage (self w)) as [st|] eqn:Hst.
    + unfold elapse.
      match goal with
      | |- context [fire ?due ?w0] =>
          assert (Hf : (exists st', stage (self (fire due w0)) = Some st') /\
                       highlight_in_place (fire due w0))
      end.
      { apply (fire_preserves (fun u =>
          (exists st', stage (self u) = Some st') /\ highlight_in_place u)).
        - intros u ((st' & Hst') & _). apply (resize_timeout_in_place u st' Hst').
        - split; [exists st; exact Hst | exact Hin]. }
      destruct Hf as ((st' & Hst') & Hin'). split; [| exact Hin'].
      rewrite Hst'. discriminate.
    + rewrite elapse_idle by (rewrite (Hdead eq_refl); constructor).
      fields. split; [intros _; apply Hdead; reflexivity | exact Hin].
Qed.

Lemma reachable_in_place w :
  reachable w ->
  (stage (self w) = None -> timers (host w) = []) /\ highlight_in_place w.
Proof.
  induction 1 as [d opts h Hh | w e Hw IH].
  - split.
    + cbn [WaveformOverview self stage]. discriminate.
    + intros r Hr. cbn [WaveformOverview self _highlightRect] in Hr. discriminate.
  - destruct IH as [Hdead Hin].
    apply step_in_place; [apply reachable_single_timer, Hw | exact Hdead | exact Hin].
Qed.

(** X12.  In every state a view goes through, an existing highlight
    rectangle sits where the stored start and end time fall in the active
    dataset: its [x] and [width] are recomputed whenever the dataset is
    replaced. *)
Theorem highlight_follows_dataset w : reachable w -> highlight_in_place w.
Proof. intros Hw. apply (reachable_in_place w Hw). Qed.

(** X13.  In every state a view goes through at most one timer is armed,
    it is the one whose id the view remembers, and a view without a
    stage has none. *)
Theorem at_most_one_timer_armed w :
  reachable w ->
  (timers (host w) = [] \/
   exists i d, timers (host w) = [(i, d)] /\ _resizeTimeoutId (self w) = Some i) /\
  (stage (self w) = None -> timers (host w) = []).
Proof.
  intros Hw. split; [| apply (reachable_in_place w Hw)].
  pose proof (reachable_single_timer w Hw) as Hs. unfold single_timer in Hs.
  destruct (timers (host w)) as [|[i d] [|t ts]]; [left; reflexivity | | ].
  - destruct (_resizeTimeoutId (self w)) as [j|]; [| discriminate].
    unfold timer_id_is in Hs. cbn [fst] in Hs. apply Pos.eqb_eq in Hs. subst j.
    right. exists i, d. auto.
  - destruct (_resizeTimeoutId (self w)); discriminate.
Qed.


(** *** Bursts of resize notifications *)

Lemma pending_single_timer w : pending w -> single_timer w = true.
Proof.
  intros (_ & i & Hi & Ht). unfold single_timer. rewrite Ht, Hi.
  unfold timer_id_is. apply Pos.eqb_refl.
Qed.

(** A notification at a nonzero width leaves a resample pending and adds
    no resample call. *)
Lemma notify_pending w (cw : Z) :
  alive w = true -> single_timer w = true -> cw <> 0 ->
  let u := steps w [container_width_becomes cw; window_resize] in
  pending u /\ clientWidth (host u) = cw /\
  originalWaveformData (self u) = originalWaveformData (self w) /\
  data (self u) = data (self w) /\
  exists l, calls (host u) = calls (host w) ++ l /\ List.filter is_resample_call l = [].
Proof.
  intros Ha Hs Hcw u. unfold alive in Ha.
  destruct (stage (self w)) as [st|] eqn:Hst; [clear Ha | discriminate].
  pose proof (single_timer_cleared w Hs) as Hc. unfold cleared in Hc.
  apply Z.eqb_neq in Hcw.
  subst u. cbn [steps fold_left step]. rewrite on_window_resize_run. fields.
  rewrite Hcw, Hst. unfold pending, alive, rearmed, cleared. fields.
  destruct (_resizeTimeoutId (self w)); fields; rewrite Hc;
    (split; [split; [reflexivity | eexists; split; reflexivity] |]);
    (split; [reflexivity|]); (split; [reflexivity|]); (split; [reflexivity|]); emits.
Qed.

(** Less than 500 ms later the timer has not fired. *)
Lemma pending_waits w (ms : Z) :
  pending w -> ms < 500 ->
  step w (time_passes ms) =
    {| self := self w;
       host := with_clock (clock (host w) + ms)
                 (with_timers (timers (host w)) (next_timer (host w)) (host w)) |}.
Proof.
  intros (_ & i & _ & Ht) Hms. cbn [step]. apply elapse_idle.
  rewrite Ht. repeat constructor. unfold is_due. cbn [snd]. apply Z.leb_gt. lia.
Qed.

Lemma pending_renotified w (ms cw : Z) :
  pending w -> ms < 500 -> cw <> 0 ->
  let u := steps w [time_passes ms; container_width_becomes cw; window_resize] in
  pending u /\ clientWidth (host u) = cw /\
  originalWaveformData (self u) = originalWaveformData (self w) /\
  data (self u) = data (self w) /\
  exists l, calls (host u) = calls (host w) ++ l /\ List.filter is_resample_call l = [].
Proof.
  intros Hp Hms Hcw u.
  pose proof (pending_waits w ms Hp Hms) as Hwait.
  destruct Hp as (Ha & i & Hi & Ht).
  set (w1 := step w (time_passes ms)) in *.
  assert (Ha1 : alive w1 = true) by (rewrite Hwait; exact Ha).
  assert (Hs1 : single_timer w1 = true).
  { rewrite Hwait. unfold single_timer. fields. rewrite Ht, Hi.
    unfold timer_id_is. apply Pos.eqb_refl. }
  destruct (notify_pending w1 cw Ha1 Hs1 Hcw) as (Hp' & Hc' & Ho' & Hd' & l & Hl & Hno).
  change u with (steps w1 [container_width_becomes cw; window_resize]).
  split; [exact Hp' | split; [exact Hc' |]].
  rewrite Ho', Hd', Hl, Hwait. fields.
  split; [reflexivity | split; [reflexivity |]]. exists l. auto.
Qed.

Lemma last_cons (l : list Z) : forall a d : Z, List.last (a :: l) d = List.last l a.
Proof.
  induction l as [|b l IH]; intros a d; [reflexivity|].
  change (List.last (a :: b :: l) d) with (List.last (b :: l) d).
  rewrite (IH b d), (IH b a). reflexivity.
Qed.

Lemma burst_pending (ws : list (Z * Z)) : forall w,
  pending w -> forallb short_pause ws = true ->
  let u := steps w (resize_burst ws) in
  pending u /\
  clientWidth (host u) = List.last (map snd ws) (clientWidth (host w)) /\
  originalWaveformData (self u) = originalWaveformData (self w) /\
  data (self u) = data (self w) /\
  exists l, calls (host u) = calls (host w) ++ l /\ List.filter is_resample_call l = [].
Proof.
  induction ws as [|[ms cw] ws IH]; intros w Hp Hok.
  - cbn. repeat split; try assumption; try apply Hp. exists []. split; [|reflexivity].
    symmetry. apply app_nil_r.
  - cbn [forallb] in Hok. apply andb_prop in Hok. destruct Hok as [Hshort Hok].
    unfold short_pause in Hshort. cbn [fst snd] in Hshort.
    apply andb_prop in Hshort. destruct Hshort as [Hshort Hnz].
    apply andb_prop in Hshort. destruct Hshort as [_ Hlt].
    apply Z.ltb_lt in Hlt. apply negb_true_iff, Z.eqb_neq in Hnz.
    destruct (pending_renotified w ms cw Hp Hlt Hnz) as (Hp1 & Hc1 & Ho1 & Hd1 & l1 & Hl1 & Hn1).
    set (w1 := steps w [time_passes ms; container_width_becomes cw; window_resize]) in *.
    destruct (IH w1 Hp1 Hok) as (Hp2 & Hc2 & Ho2 & Hd2 & l2 & Hl2 & Hn2).
    change (steps w (resize_burst ((ms, cw) :: ws))) with (steps w1 (resize_burst ws)).
    split; [exact Hp2|]. split.
    { rewrite Hc2, Hc1. cbn [map snd]. rewrite last_cons. reflexivity. }
    split; [congruence|]. split; [congruence|].
    exists (l1 ++ l2). split.
    + rewrite Hl2, Hl1, app_assoc. reflexivity.
    + rewrite List.filter_app, Hn1, Hn2. reflexivity.
Qed.

(** Once 500 ms have passed the pending resample runs, for the width the
    container has then. *)
Lemma pending_fires w (ms : Z) :
  pending w -> 500 <= ms ->
  let c := step w (time_passes ms) in
  timers (host c) = [] /\
  _resizeTimeoutId (self c) = _resizeTimeoutId (self w) /\
  (exists st, stage (self c) = Some st) /\
  width (self c) = clientWidth (host w) /\
  data (self c) = resample (originalWaveformData (self w)) (clientWidth (host w)) /\
  exists l, calls (host c) = calls (host w) ++ resample_call (clientWidth (host w)) :: l /\
            List.filter is_resample_call l = [].
Proof.
  intros (Ha & i & Hi & Ht) Hms c. unfold alive in Ha.
  destruct (stage (self w)) as [st|] eqn:Hst; [clear Ha | discriminate].
  subst c. cbn [step]. rewrite (elapse_one_due w ms _ Ht).
  2:{ unfold is_due. cbn [snd]. apply Z.leb_le. lia. }
  rewrite resize_timeout_run. fields. rewrite Hst.
  unfold redrawn. fields. rewrite calls_logged. unfold resampled, cascade_calls. fields.
  destruct (_highlightRect (self w)); fields;
    (split; [reflexivity|]); (split; [exact eq_refl|]);
    (split; [eexists; reflexivity|]); (split; [reflexivity|]); (split; [reflexivity|]);
    (eexists; split; [repeat rewrite <- app_assoc; reflexivity | reflexivity]).
Qed.


(** X14.  A burst of resize notifications of any length, each at a nonzero
    width and less than 500 ms after the one before, followed by 500 ms
    of quiet, leads to exactly one resample, of the original dataset at
    the width of the last notification; the view then has that width and
    no timer is left armed. *)
Theorem resize_burst_debounced w (cw ms : Z) (ws : list (Z * Z)) :
  alive w = true -> single_timer w = true ->
  cw <> 0 -> forallb short_pause ws = true -> 500 <= ms ->
  let u := steps w ([container_width_becomes cw; window_resize] ++ resize_burst ws) in
  let c := step u (time_passes ms) in
  let final := List.last (map snd ws) cw in
  List.filter is_resample_call (calls_since w c) = [resample_call final] /\
  getWidth (self c) = final /\
  getWaveformData (self c) = resample (originalWaveformData (self w)) final /\
  timers (host c) = [].
Proof.
  intros Ha Hs Hcw Hok Hms u c final.
  destruct (notify_pending w cw Ha Hs Hcw) as (Hp1 & Hc1 & Ho1 & _ & l1 & Hl1 & Hn1).
  set (w1 := steps w [container_width_becomes cw; window_resize]) in *.
  destruct (burst_pending ws w1 Hp1 Hok) as (Hp2 & Hc2 & Ho2 & _ & l2 & Hl2 & Hn2).
  assert (Hu : u = steps w1 (resize_burst ws)).
  { unfold u, w1, steps. rewrite fold_left_app. reflexivity. }
  rewrite <- Hu in Hp2, Hc2, Ho2, Hl2. rewrite Hc1 in Hc2. fold final in Hc2.
  destruct (pending_fires u ms Hp2 Hms) as (Ht & _ & _ & Hw & Hd & l3 & Hl3 & Hn3).
  fold c in Ht, Hw, Hd, Hl3. rewrite Hc2 in Hw, Hd, Hl3.
  unfold getWidth, getWaveformData. repeat split.
  - erewrite calls_since_app.
    2:{ rewrite Hl3, Hl2, Hl1. repeat rewrite <- app_assoc. reflexivity. }
    repeat rewrite List.filter_app. rewrite Hn1, Hn2. cbn. rewrite Hn3. reflexivity.
  - exact Hw.
  - rewrite Hd, Ho2, Ho1. reflexivity.
  - exact Ht.
Qed.

(** X15.  The callback does not forget its timer id: after it has run the
    view still remembers the id of the timer that fired, so the next
    [destroy] clears that id although nothing is armed. *)
Theorem fired_timer_id_is_kept w (ms : Z) (i : positive) :
  pending w -> _resizeTimeoutId (self w) = Some i -> 500 <= ms ->
  let c := step w (time_passes ms) in
  timers (host c) = [] /\
  _resizeTimeoutId (self c) = Some i /\
  calls_since c (step c teardown) = [clearTimeout_call i; stage_destroy].
Proof.
  intros Hp Hi Hms c.
  destruct (pending_fires w ms Hp Hms) as (Ht & Hid & (st & Hst) & _).
  fold c in Ht, Hid, Hst. rewrite Hi in Hid.
  split; [exact Ht | split; [exact Hid |]].
  cbn [step]. rewrite destroy_run, Hst. unfold cleared. rewrite Hid. fields.
  apply calls_since_app. fields. rewrite <- app_assoc. reflexivity.
Qed.

(** X16.  A resize notification at width zero drops a pending resample for
    good: after a resize to a nonzero width and then one that finds the
    container at width zero, the view and its stage have the new width,
    the dataset is still the old one, no timer is armed, and no amount of
    waiting resamples it. *)
Theorem cancelled_resample_is_dropped w (cw ms : Z) :
  alive w = true -> single_timer w = true -> cw <> 0 ->
  let u := steps w [container_width_becomes cw; window_resize;
                    container_width_becomes 0; window_resize] in
  let c := step u (time_passes ms) in
  getWidth (self c) = cw /\
  (exists st, stage (self c) = Some st /\ stage_width st = cw) /\
  getWaveformData (self c) = getWaveformData (self w) /\
  timers (host c) = [] /\
  List.filter is_resample_call (calls_since w c) = [].
Proof.
  intros Ha Hs Hcw u c.
  destruct (notify_pending w cw Ha Hs Hcw) as (Hp1 & Hc1 & _ & Hd1 & l1 & Hl1 & Hn1).
  set (w1 := steps w [container_width_becomes cw; window_resize]) in *.
  assert (Hw1 : width (self w1) = cw /\ exists st, stage (self w1) = Some st /\ stage_width st = cw).
  { unfold alive in Ha. destruct (stage (self w)) as [st|] eqn:Hst; [| discriminate].
    apply Z.eqb_neq in Hcw.
    unfold w1. cbn [steps fold_left step]. rewrite on_window_resize_run. fields.
    rewrite Hcw, Hst. unfold rearmed. fields. split; [reflexivity|].
    eexists. split; reflexivity. }
  destruct Hw1 as (Hwd & st & Hst & Hsw).
  pose proof (pending_single_timer w1 Hp1) as Hs1.
  set (w2 := step w1 (container_width_becomes 0)).
  assert (Hu : u = cleared w2).
  { change u with (run on_window_resize w2). unfold run.
    rewrite (on_window_resize_zero w2 eq_refl). reflexivity. }
  assert (Ht : timers (host u) = []).
  { rewrite Hu. apply single_timer_cleared. exact Hs1. }
  destruct (cleared_fields w2) as (Hcw2 & Hcd & Hcs & _).
  assert (Hlu : exists l, calls (host u) = calls (host w1) ++ l /\
                          List.filter is_resample_call l = []).
  { rewrite Hu. unfold cleared, w2. cbn [step self host].
    destruct (_resizeTimeoutId (self w1)); fields; emits. }
  destruct Hlu as (l2 & Hl2 & Hn2).
  assert (Hc : c = {| self := self u;
                      host := with_clock (clock (host u) + ms)
                                (with_timers (timers (host u)) (next_timer (host u)) (host u)) |}).
  { unfold c. cbn [step]. apply elapse_idle. rewrite Ht. constructor. }
  assert (Hself : self c = self (cleared w2)) by (rewrite Hc, <- Hu; reflexivity).
  unfold getWidth, getWaveformData. rewrite Hself, Hcw2, Hcd, Hcs.
  split; [exact Hwd|]. split; [exists st; auto|]. split; [exact Hd1|].
  split; [rewrite Hc; exact Ht|].
  erewrite calls_since_app.
  2:{ rewrite Hc. cbn [host with_clock with_timers calls].
      rewrite Hl2, Hl1, <- app_assoc. reflexivity. }
  rewrite List.filter_app, Hn1, Hn2. reflexivity.
Qed.


(** X17.  The callback reads the container afresh: when a pending resample
    runs it uses the width the container has at that moment, whatever
    width the notification found, and stores it as the view's width. *)
Theorem resample_uses_width_at_fire_time w (cw ms : Z) :
  pending w -> 500 <= ms ->
  let c := steps w [container_width_becomes cw; time_passes ms] in
  List.filter is_resample_call (calls_since w c) = [resample_call cw] /\
  getWidth (self c) = cw /\
  getWaveformData (self c) = resample (originalWaveformData (self w)) cw.
Proof.
  intros Hp Hms c.
  set (w1 := step w (container_width_becomes cw)).
  assert (Hp1 : pending w1).
  { destruct Hp as (Ha & i & Hi & Ht). split; [exact Ha|]. exists i. split; assumption. }
  destruct (pending_fires w1 ms Hp1 Hms) as (_ & _ & _ & Hw & Hd & l & Hl & Hn).
  change (step w1 (time_passes ms)) with c in Hw, Hd, Hl.
  unfold getWidth, getWaveformData. repeat split.
  - erewrite calls_since_app; [| exact Hl]. cbn. rewrite Hn. reflexivity.
  - exact Hw.
  - exact Hd.
Qed.

(** *** The last notification wins *)

(** X18.  The highlight shows the last notified range only: two
    notifications in a row leave the view exactly as the second one alone
    would have, whether or not a rectangle existed before. *)
Theorem last_notification_wins w (s1 e1 s2 e2 : Q) :
  self (steps w [zoomview_displaying s1 e1; zoomview_displaying s2 e2]) =
  self (step w (zoomview_displaying s2 e2)).
Proof.
  cbn [steps fold_left step]. rewrite !on_zoomview_displaying_run.
  destruct (_highlightRect (self w)) as [r|] eqn:Hr; unfold highlighted; fields;
    unfold set_highlightRect, set_highlightRectTimes, timeToPixels; fields;
    f_equal; f_equal; apply map_eq; intros k;
    rewrite !lookup_insert; repeat case_decide; congruence.
Qed.


(** *** When the width stays nonzero *)

Lemma resize_timeout_wide w :
  clientWidth (host w) <> 0 ->
  width (self (run resize_timeout w)) <> 0 /\
  clientWidth (host (run resize_timeout w)) = clientWidth (host w) /\
  exists l, calls (host (run resize_timeout w)) = calls (host w) ++ l /\
            List.filter is_zero_resample l = [].
Proof.
  intros Hcw. pose proof Hcw as Hb. apply Z.eqb_neq in Hb.
  rewrite resize_timeout_run. destruct (stage (self w)) as [st|].
  - unfold redrawn. cbn [host self]. rewrite calls_logged.
    unfold resampled, cascade_calls. fields.
    destruct (_highlightRect (self w)); fields;
      (split; [exact Hcw | split; [reflexivity |]]);
      (eexists; split; [repeat rewrite <- app_assoc; reflexivity |]);
      cbn; rewrite Hb; reflexivity.
  - fields. split; [exact Hcw | split; [reflexivity |]].
    eexists. split; [reflexivity |]. cbn. rewrite Hb. reflexivity.
Qed.

Lemma step_wide w (e : Event) :
  width (self w) <> 0 ->
  wide_when_time_passes (clientWidth (host w)) [e] = true ->
  width (self (step w e)) <> 0 /\
  List.filter is_zero_resample (calls_since w (step w e)) = [].
Proof.
  intros Hw He.
  assert (Hq : is_time_passes e = false ->
               List.filter is_zero_resample (calls_since w (step w e)) = []).
  { intros Ht. destruct (step_calls w e) as (l & Hl & Hok).
    rewrite (calls_since_app w (step w e) l Hl).
    apply (filter_excluded _ (may_call e)); [| exact Hok].
    intros c Hc. destruct e, c; try discriminate; reflexivity. }
  destruct e; try (split; [| apply Hq; reflexivity]); cbn [step]; try exact Hw.
  - handler_cases w; exact Hw.
  - rewrite on_window_resize_run.
    destruct (Z.eqb_spec (clientWidth (host w)) 0) as [Hz|Hz].
    + destruct (cleared_fields w) as (Hcw & _). rewrite Hcw. exact Hw.
    + destruct (stage (self w)); unfold rearmed; fields; exact Hz.
  - handler_cases w; exact Hw.
  - cbn [wide_when_time_passes] in He. rewrite andb_true_r in He.
    apply negb_true_iff, Z.eqb_neq in He.
    unfold elapse.
    match goal with
    | |- context [fire ?due ?w0] =>
        assert (Hf : (width (self (fire due w0)) <> 0 /\
                      clientWidth (host (fire due w0)) = clientWidth (host w)) /\
                     exists l, calls (host (fire due w0)) = calls (host w) ++ l /\
                               List.filter is_zero_resample l = [])
    end.
    { apply (fire_preserves (fun u =>
        (width (self u) <> 0 /\ clientWidth (host u) = clientWidth (host w)) /\
        exists l, calls (host u) = calls (host w) ++ l /\
                  List.filter is_zero_resample l = [])).
      - intros u ((_ & Hcu) & l & Hl & Hno).
        destruct (resize_timeout_wide u) as (Hw' & Hc' & l' & Hl' & Hno').
        { rewrite Hcu. exact He. }
        split; [split; [exact Hw' | congruence]|].
        exists (l ++ l'). split.
        + rewrite Hl', Hl, app_assoc. reflexivity.
        + rewrite List.filter_app, Hno, Hno'. reflexivity.
      - fields. split; [split; [exact Hw | reflexivity] | emits]. }
    destruct Hf as ((Hw' & _) & l & Hl & Hno). split; [exact Hw'|].
    rewrite (calls_since_app _ _ l Hl). exact Hno.
Qed.

Lemma clientWidth_logged (cs : list Call) : forall h : Host,
  clientWidth (fold_left (fun h c => log_call c h) cs h) = clientWidth h.
Proof.
  induction cs as [|c cs IH]; intros h; [reflexivity|].
  cbn [fold_left]. rewrite IH. reflexivity.
Qed.

Lemma step_clientWidth w (e : Event) :
  clientWidth (host (step w e)) =
  match e with container_width_becomes c => c | _ => clientWidth (host w) end.
Proof.
  destruct e; cbn [step]; try reflexivity.
  - handler_cases w; reflexivity.
  - handler_cases w; reflexivity.
  - handler_cases w; reflexivity.
  - unfold elapse.
    apply (fire_preserves (fun u => clientWidth (host u) = clientWidth (host w)));
      [| reflexivity].
    intros u Hu. rewrite <- Hu. handler_cases u;
      rewrite ?clientWidth_logged; reflexivity.
Qed.

(** X19.  The guard of the resize handler is enough as long as the
    container is not zero-wide at a moment when time passes: a view whose
    width is nonzero then keeps a nonzero width and is never resampled to
    width zero, zero-width notifications included. *)
Theorem width_stays_nonzero (es : list Event) : forall w,
  getWidth (self w) <> 0 ->
  wide_when_time_passes (clientWidth (host w)) es = true ->
  getWidth (self (steps w es)) <> 0 /\
  List.filter is_zero_resample (calls_since w (steps w es)) = [].
Proof.
  unfold getWidth.
  induction es as [|e es IH]; intros w Hw Hes.
  - unfold calls_since. simpl. rewrite drop_all. auto.
  - assert (He : wide_when_time_passes (clientWidth (host w)) [e] = true /\
                 wide_when_time_passes (clientWidth (host (step w e))) es = true).
    { rewrite step_clientWidth. destruct e; cbn [wide_when_time_passes] in *;
        try (split; [reflexivity | exact Hes]).
      apply andb_prop in Hes. destruct Hes as [H1 H2]. rewrite H1. auto. }
    destruct He as [He Hes'].
    destruct (step_wide w e Hw He) as (Hw' & Hc').
    destruct (IH (step w e) Hw' Hes') as (Hw'' & Hc).
    rewrite calls_since_step, List.filter_app, Hc, Hc'. auto.
Qed.

End MoreProperties.

(** ** The further properties at work on the demo track *)

Lemma demo_armed_reachable : reachable demo_armed.
Proof.
  unfold demo_armed. apply reachable_steps.
  unfold demo_world. apply reach_new. reflexivity.
Qed.

Lemma demo_armed_pending : pending demo_armed.
Proof. split; [reflexivity | exists 1%positive; split; reflexivity]. Qed.

Lemma only_the_timer_resamples_demo :
  getWaveformData
    (self (steps demo_world
             [container_width_becomes 800; window_resize; zoomview_displaying 2 5;
              mouse_down 10; teardown])) =
  getWaveformData (self demo_world).
Proof.
  refine (proj2 (only_the_timer_resamples
    [container_width_becomes 800; window_resize; zoomview_displaying 2 5;
     mouse_down 10; teardown] demo_world _)).
  reflexivity.
Defined.

Lemma no_notification_no_highlight_demo :
  List.filter is_highlight_call
    (calls_since demo_armed
       (steps demo_armed [time_passes 600; mouse_down 3; window_resize])) = [].
Proof.
  refine (proj2 (no_notification_no_highlight
    [time_passes 600; mouse_down 3; window_resize] demo_armed _ _)); reflexivity.
Defined.

Lemma inert_after_teardown_demo :
  List.filter is_resize_work
    (calls_since (step demo_armed teardown)
       (steps (step demo_armed teardown)
          [container_width_becomes 640; window_resize; time_passes 1000;
           zoomview_displaying 2 5])) = [].
Proof.
  refine (proj2 (proj2 (inert_after_teardown demo_armed
    [container_width_becomes 640; window_resize; time_passes 1000;
     zoomview_displaying 2 5] _))).
  reflexivity.
Defined.

Lemma resize_after_teardown_demo :
  snd (on_window_resize (run destroy demo_armed)) = TypeError.
Proof.
  refine (proj1 (proj1 (resize_after_teardown demo_armed _) _)).
  - reflexivity.
  - lazy. lia.
Defined.


Lemma seek_time_in_range_demo :
  exists t : Q,
    List.filter is_seek_call
      (calls_since demo_world (step demo_world (mouse_move 5000))) = [player_seek t] /\
    (0 <= t <= pixelsToTime (self demo_world) (inject_Z (getWidth (self demo_world))))%Q.
Proof.
  destruct (seek_time_in_range demo_world 5000 (mouse_move 5000))
    as (t & Ht & Hr & _).
  - right. reflexivity.
  - simpl. lia.
  - reflexivity.
  - reflexivity.
  - exists t. auto.
Defined.

Lemma highlight_follows_dataset_demo :
  highlight_in_place (steps demo_armed [zoomview_displaying 2 5; time_passes 500]).
Proof.
  apply highlight_follows_dataset, reachable_steps, demo_armed_reachable.
Defined.

Lemma at_most_one_timer_armed_demo :
  timers (host demo_armed) = [] \/
  exists i d, timers (host demo_armed) = [(i, d)] /\
              _resizeTimeoutId (self demo_armed) = Some i.
Proof.
  exact (proj1 (at_most_one_timer_armed demo_armed demo_armed_reachable)).
Defined.

Lemma resize_burst_debounced_demo :
  List.filter is_resample_call
    (calls_since demo_world
       (step
          (steps demo_world
             ([container_width_becomes 800; window_resize] ++
              resize_burst [(100, 900); (200, 700)]))
          (time_passes 500))) =
  [resample_call (List.last (map snd [(100, 900); (200, 700)]) 800)].
Proof.
  refine (proj1 (resize_burst_debounced demo_world 800 500
                   [(100, 900); (200, 700)] _ _ _ _ _)).
  - reflexivity.
  - reflexivity.
  - lia.
  - reflexivity.
  - lia.
Defined.

Lemma fired_timer_id_is_kept_demo :
  calls_since (step demo_armed (time_passes 500))
    (step (step demo_armed (time_passes 500)) teardown) =
  [clearTimeout_call 1; stage_destroy].
Proof.
  refine (proj2 (proj2 (fired_timer_id_is_kept demo_armed 500 1 _ _ _))).
  - exact demo_armed_pending.
  - reflexivity.
  - lia.
Defined.

Lemma cancelled_resample_is_dropped_demo :
  getWaveformData
    (self (step
             (steps demo_world
                [container_width_becomes 800; window_resize;
                 container_width_becomes 0; window_resize])
             (time_passes 10000))) =
  getWaveformData (self demo_world).
Proof.
  refine (proj1 (proj2 (proj2
    (cancelled_resample_is_dropped demo_world 800 10000 _ _ _)))).
  - reflexivity.
  - reflexivity.
  - lia.
Defined.

Lemma resample_uses_width_at_fire_time_demo :
  getWidth (self (steps demo_armed [container_width_becomes 640; time_passes 500])) = 640.
Proof.
  refine (proj1 (proj2 (resample_uses_width_at_fire_time demo_armed 640 500 _ _))).
  - exact demo_armed_pending.
  - lia.
Defined.

(** Notified while hidden, wide again before any time passes. *)
Lemma width_stays_nonzero_demo :
  List.filter is_zero_resample
    (calls_since demo_armed
       (steps demo_armed
          [container_width_becomes 0; window_resize; container_width_becomes 640;
           time_passes 500; window_resize; time_passes 500])) = [].
Proof.
  refine (proj2 (width_stays_nonzero
    [container_width_becomes 0; window_resize; container_width_becomes 640;
     time_passes 500; window_resize; time_passes 500] demo_armed _ _)).
  - lazy. lia.
  - reflexivity.
Defined.
